(** * Python inventory service: models.py, inventory_service.py, api.py

    A shallow embedding of the inventory gateway.  The pure code of
    [models.py] becomes functions into an error type, one constructor per
    Python exception class the code can meet.  The service and the route
    handlers run in a small monad that reads the upstream network, threads
    the trace of upstream calls and of log records, and may raise. *)

From Stdlib Require Import ZArith List String Ascii Bool Lia.
Import ListNotations.
Open Scope string_scope.
Open Scope Z_scope.

(** ** Exceptions

    Every class below derives from [Exception], so each of them is caught
    by the [except Exception] clauses of the service and of the handlers. *)

Inductive error : Type :=
| ValueError          (* ProductCategory(s) on a string that is no member *)
| TypeError           (* unhashable element, unexpected keyword, bad operand *)
| AttributeError      (* [.value] on something that is no enum member *)
| InvalidOperation    (* decimal.InvalidOperation *)
| ValidationError     (* pydantic, building a ProductResponse *)
| JSONDecodeError     (* response.json() on a body that is no JSON *)
| ClientError.        (* aiohttp: connection refused, timeout, reset *)

(** [HTTPException(status_code, detail)]: [detail] is the text of the
    f-string, [cause] the exception whose [str] the f-string appends. *)
Inductive exn : Type :=
| Error (e : error)
| HTTPException (status_code : Z) (detail : string) (cause : option error).
Coercion Error : error >-> exn.

Inductive Exc (A : Type) : Type :=
| Ok (a : A)
| Raise (e : exn).
Arguments Ok {A} a.
Arguments Raise {A} e.

Class Monad (M : Type -> Type) : Type :=
  { ret : forall {A}, A -> M A;
    bind : forall {A B}, M A -> (A -> M B) -> M B }.

Declare Scope monad_scope.
Delimit Scope monad_scope with monad.
Notation "x <- c1 ;; c2" := (bind c1 (fun x => c2))
  (at level 61, c1 at next level, right associativity) : monad_scope.
Notation "c1 ;; c2" := (bind c1 (fun _ => c2))
  (at level 61, right associativity) : monad_scope.
Open Scope monad_scope.

#[global] Instance Exc_Monad : Monad Exc :=
  {| ret := fun A (a : A) => Ok a;
     bind := fun A B (x : Exc A) (f : A -> Exc B) =>
               match x with
               | Ok a => f a
               | Raise e => Raise e
               end |}.

(** A list comprehension [[f(x) for x in l]]: left to right, the first
    exception ends it. *)
Fixpoint comprehension {A B} (f : A -> Exc B) (l : list A) : Exc (list B) :=
  match l with
  | [] => Ok []
  | x :: l' =>
      match f x with
      | Raise e => Raise e
      | Ok y =>
          match comprehension f l' with
          | Raise e => Raise e
          | Ok ys => Ok (y :: ys)
          end
      end
  end.

(** ** models.py: ProductCategory *)

Inductive ProductCategory : Type :=
| ACCESSORIES | HARDWARE | SOFTWARE | BOOKS | MOVIES | MUSIC | GAMES | OTHER.

(** [category.value] *)
Definition value (c : ProductCategory) : string :=
  match c with
  | ACCESSORIES => "Accessories"
  | HARDWARE => "Hardware"
  | SOFTWARE => "Software"
  | BOOKS => "Books"
  | MOVIES => "Movies"
  | MUSIC => "Music"
  | GAMES => "Games"
  | OTHER => "Other"
  end.

(** [for category in ProductCategory]: the members in definition order. *)
Definition ProductCategory_members : list ProductCategory :=
  [ACCESSORIES; HARDWARE; SOFTWARE; BOOKS; MOVIES; MUSIC; GAMES; OTHER].

(** [ProductCategory(s)]: the member whose value is [s]; [None] stands for
    the [ValueError] the enum raises when there is none. *)
Definition ProductCategory_of_value (s : string) : option ProductCategory :=
  find (fun c => String.eqb (value c) s) ProductCategory_members.

Definition ProductCategory_eqb (a b : ProductCategory) : bool :=
  String.eqb (value a) (value b).

(** ** decimal.Decimal

    A finite decimal [coefficient * 10 ^ exponent], as the default context
    computes with it: 28 significant digits, ROUND_HALF_EVEN, the
    InvalidOperation trap enabled.  NaN, the infinities, the sign of zero
    and the exponent limits of the context (Emax = 999999) are left out. *)

Record Decimal : Type := mkDecimal { coefficient : Z; exponent : Z }.

Definition prec : Z := 28.

(** Number of decimal digits of [|z|]; zero has one digit. *)
Fixpoint ndigits_pos (fuel : nat) (p : Z) : Z :=
  match fuel with
  | O => 1
  | S fuel' => if p <? 10 then 1 else 1 + ndigits_pos fuel' (p / 10)
  end.

Definition ndigits (z : Z) : Z :=
  ndigits_pos (S (Z.to_nat (Z.log2 (Z.abs z)))) (Z.abs z).

(** [z / 10 ^ k] rounded to the nearest integer, ties to even; the sign is
    set aside, as the decimal module rounds the magnitude. *)
Definition round_half_even (z k : Z) : Z :=
  let p := 10 ^ k in
  let q := Z.abs z / p in
  let r := Z.abs z mod p in
  let q' := if (2 * r <? p) then q
            else if (p <? 2 * r) then q + 1
            else if Z.even q then q else q + 1 in
  Z.sgn z * q'.

(** Rounding of an exact result to the precision of the context. *)
Definition fix_prec (c e : Z) : Decimal :=
  let n := ndigits c in
  if n <=? prec then mkDecimal c e
  else
    let k := n - prec in
    let c' := round_half_even c k in
    if ndigits c' <=? prec then mkDecimal c' (e + k)
    else mkDecimal (c' / 10) (e + k + 1).

(** [int * Decimal] *)
Definition Decimal_mul_int (q : Z) (d : Decimal) : Decimal :=
  fix_prec (q * coefficient d) (exponent d).

(** The coefficient of [d] at exponent [e]. *)
Definition rescale (d : Decimal) (e : Z) : Z :=
  if e <=? exponent d
  then coefficient d * 10 ^ (exponent d - e)
  else round_half_even (coefficient d) (e - exponent d).

(** [round(d, 2)], which is [d.quantize(Decimal('0.01'))]: InvalidOperation
    when the result needs more digits than the context has. *)
Definition Decimal_round2 (d : Decimal) : Exc Decimal :=
  let c := rescale d (-2) in
  if Z.abs c <? 10 ^ prec then Ok (mkDecimal c (-2)) else Raise InvalidOperation.

(** [a == b] on decimals compares the numbers, not the digits. *)
Definition Decimal_eqb (a b : Decimal) : bool :=
  let e := Z.min (exponent a) (exponent b) in
  coefficient a * 10 ^ (exponent a - e) =? coefficient b * 10 ^ (exponent b - e).

(** ** Python values

    A float is written [PyFloat d] for the decimal [d] that [repr] prints
    for it, so [str] of a float is exact here and [float(d)] keeps [d].
    The binary rounding of [float] is not modelled. *)

Record pyfloat : Type := PyFloat { repr : Decimal }.

(** What [json.loads] builds, and an enum member besides: the values a
    field of a record can hold.  A dict keeps its insertion order, with
    each key once. *)
Inductive pyval : Type :=
| VNone
| VBool (b : bool)
| VInt (z : Z)
| VFloat (x : pyfloat)
| VStr (s : string)
| VList (l : list pyval)
| VDict (d : list (string * pyval))
| VCategory (c : ProductCategory).

Definition dict : Type := list (string * pyval).

(** [d.get(k)]; [None] when [k not in d]. *)
Fixpoint dict_get (k : string) (d : dict) : option pyval :=
  match d with
  | [] => None
  | (k', v) :: d' => if String.eqb k k' then Some v else dict_get k d'
  end.

Definition keys (d : dict) : list string := map fst d.

(** The number a value is, for [==] across bool, int and float. *)
Definition number_of (v : pyval) : option Decimal :=
  match v with
  | VBool b => Some (mkDecimal (Z.b2z b) 0)
  | VInt z => Some (mkDecimal z 0)
  | VFloat (PyFloat d) => Some d
  | _ => None
  end.

(** [a == b] *)
Fixpoint pyval_eqb (a b : pyval) {struct a} : bool :=
  match a, b with
  | VNone, VNone => true
  | VStr s, VStr t => String.eqb s t
  | VCategory c, VCategory c' => ProductCategory_eqb c c'
  | VList l, VList l' =>
      (fix all2 (l l' : list pyval) {struct l} : bool :=
         match l, l' with
         | [], [] => true
         | x :: m, y :: m' => pyval_eqb x y && all2 m m'
         | _, _ => false
         end) l l'
  | VDict d, VDict d' =>
      (Nat.eqb (List.length d) (List.length d')) &&
      (fix sub (d : list (string * pyval)) {struct d} : bool :=
         match d with
         | [] => true
         | (k, v) :: m =>
             match dict_get k d' with
             | Some v' => pyval_eqb v v'
             | None => false
             end && sub m
         end) d
  | _, _ =>
      match number_of a, number_of b with
      | Some x, Some y => Decimal_eqb x y
      | _, _ => false
      end
  end.

(** *** Decimal(str(v)) *)

Definition is_space (c : ascii) : bool :=
  let n := Z.of_nat (nat_of_ascii c) in
  ((9 <=? n) && (n <=? 13)) || ((28 <=? n) && (n <=? 32)).

Definition digit_of (c : ascii) : option Z :=
  let n := Z.of_nat (nat_of_ascii c) in
  if (48 <=? n) && (n <=? 57) then Some (n - 48) else None.

Fixpoint drop_spaces (l : list ascii) : list ascii :=
  match l with
  | c :: l' => if is_space c then drop_spaces l' else l
  | [] => []
  end.

Definition strip (l : list ascii) : list ascii :=
  rev (drop_spaces (rev (drop_spaces l))).

(** The leading digits of [l], read onto [acc], their number, and the rest. *)
Fixpoint read_digits (l : list ascii) (acc : Z) (n : Z) : Z * Z * list ascii :=
  match l with
  | c :: l' =>
      match digit_of c with
      | Some k => read_digits l' (10 * acc + k) (n + 1)
      | None => (acc, n, l)
      end
  | [] => (acc, n, [])
  end.

Definition read_sign (l : list ascii) : Z * list ascii :=
  match l with
  | "-"%char :: l' => (-1, l')
  | "+"%char :: l' => (1, l')
  | _ => (1, l)
  end.

(** [Decimal(s)] for a numeric string: sign, digits with an optional point,
    optional exponent; white space around it and underscores are dropped.
    The conversion is exact.  The strings that denote a NaN or an infinity
    are refused with the rest. *)
Definition Decimal_of_string (s : string) : Exc Decimal :=
  let l := filter (fun c => negb (Ascii.eqb c "_"%char))
                  (strip (list_ascii_of_string s)) in
  let '(sg, l1) := read_sign l in
  let '(ip, n1, l2) := read_digits l1 0 0 in
  let '(c, n2, l3) :=
    match l2 with
    | "."%char :: l2' => read_digits l2' ip 0
    | _ => (ip, 0, l2)
    end in
  if n1 + n2 =? 0 then Raise InvalidOperation
  else
    match l3 with
    | [] => Ok (mkDecimal (sg * c) (- n2))
    | i :: l4 =>
        if Ascii.eqb i "e"%char || Ascii.eqb i "E"%char then
          let '(sg', l5) := read_sign l4 in
          match read_digits l5 0 0 with
          | (e, n3, []) =>
              if n3 =? 0 then Raise InvalidOperation
              else Ok (mkDecimal (sg * c) (sg' * e - n2))
          | _ => Raise InvalidOperation
          end
        else Raise InvalidOperation
    end.

(** [Decimal(str(v))]: [str] of an int or a float is a numeric string;
    [str] of None, a bool, a list, a dict or an enum member is not. *)
Definition Decimal_of_str (v : pyval) : Exc Decimal :=
  match v with
  | VInt z => Ok (mkDecimal z 0)
  | VFloat (PyFloat d) => Ok d
  | VStr s => Decimal_of_string s
  | _ => Raise InvalidOperation
  end.

(** [float(d)] *)
Definition float_of_Decimal (d : Decimal) : pyfloat := PyFloat d.

(** *** json.dumps and json.loads

    A JSON text is kept as the value it denotes: [json.loads] gives that
    value back, and [json.dumps] raises TypeError on what JSON cannot
    hold, an enum member. *)

Inductive json_text : Type := JSONText (denotes : pyval).

Fixpoint serializable (v : pyval) : bool :=
  match v with
  | VCategory _ => false
  | VList l =>
      (fix all (l : list pyval) : bool :=
         match l with
         | [] => true
         | x :: m => serializable x && all m
         end) l
  | VDict d =>
      (fix all (d : list (string * pyval)) : bool :=
         match d with
         | [] => true
         | (_, x) :: m => serializable x && all m
         end) d
  | _ => true
  end.

Definition json_dumps (v : pyval) : Exc json_text :=
  if serializable v then Ok (JSONText v) else Raise TypeError.

Definition json_loads (t : json_text) : pyval :=
  match t with JSONText v => v end.

(** *** Hashing and sets

    What [set.update] asks of its elements: [hash(x)], which may raise,
    and [==]. *)
Class PyObject (A : Type) : Type :=
  { py_hash : A -> Exc Z;
    py_eq : A -> A -> bool }.

Definition pyset (A : Type) : Type := list A.

Definition set_add {A} `{PyObject A} (x : A) (s : pyset A) : pyset A :=
  if existsb (py_eq x) s then s else (s ++ [x])%list.

(** [s.update(l)]: the elements are hashed and added one by one; when
    [hash] raises, the elements added so far stay in the set. *)
Fixpoint set_update {A} `{PyObject A} (s : pyset A) (l : list A)
  : pyset A * option exn :=
  match l with
  | [] => (s, None)
  | x :: l' =>
      match py_hash x with
      | Raise e => (s, Some e)
      | Ok _ => set_update (set_add x s) l'
      end
  end.

(** ** models.py: ProductDetails

    Python does not enforce the annotations of a dataclass: [from_dict]
    stores what the JSON holds, so the fields annotated [Optional[str]],
    [ProductCategory] and [int] are values of any kind.  [unit_price] is
    a Decimal on every path that builds a record. *)

Record ProductDetails : Type := mkProductDetails
  { id : pyval;             (* Optional[str] = None *)
    name : pyval;           (* Optional[str] = None *)
    description : pyval;    (* Optional[str] = None *)
    category : pyval;       (* ProductCategory = ProductCategory.OTHER *)
    quantity : pyval;       (* int = 0 *)
    unit_price : Decimal;   (* Decimal = Decimal('0.00') *)
    details_url : pyval;    (* Optional[str] = None *)
    image_url : pyval }.    (* Optional[str] = None *)

Definition field_names : list string :=
  ["id"; "name"; "description"; "category"; "quantity"; "unit_price";
   "details_url"; "image_url"].

(** [@dataclass] with its defaults ([eq=True], [frozen=False]) defines
    [__eq__], field by field, and sets [__hash__] to None: [hash(p)]
    raises TypeError, unhashable type. *)
#[global] Instance ProductDetails_PyObject : PyObject ProductDetails :=
  {| py_hash := fun _ => Raise TypeError;
     py_eq := fun p q =>
       pyval_eqb (id p) (id q) && pyval_eqb (name p) (name q) &&
       pyval_eqb (description p) (description q) &&
       pyval_eqb (category p) (category q) &&
       pyval_eqb (quantity p) (quantity q) &&
       Decimal_eqb (unit_price p) (unit_price q) &&
       pyval_eqb (details_url p) (details_url q) &&
       pyval_eqb (image_url p) (image_url q) |}.

(** [round(self.quantity * self.unit_price, 2)]: the product is defined
    for an int (a bool is one); any other left operand is a TypeError. *)
Definition total_price (self : ProductDetails) : Exc Decimal :=
  match quantity self with
  | VInt q => Decimal_round2 (Decimal_mul_int q (unit_price self))
  | VBool b => Decimal_round2 (Decimal_mul_int (Z.b2z b) (unit_price self))
  | _ => Raise TypeError
  end.

(** [self.category.value] *)
Definition category_value (self : ProductDetails) : Exc string :=
  match category self with
  | VCategory c => Ok (value c)
  | _ => Raise AttributeError
  end.

(** [asdict(self)] with 'category' and 'unit_price' replaced in place and
    'total_price' added last. *)
Definition to_dict (self : ProductDetails) : Exc dict :=
  c <- category_value self ;;
  t <- total_price self ;;
  ret [("id", id self);
       ("name", name self);
       ("description", description self);
       ("category", VStr c);
       ("quantity", quantity self);
       ("unit_price", VFloat (float_of_Decimal (unit_price self)));
       ("details_url", details_url self);
       ("image_url", image_url self);
       ("total_price", VFloat (float_of_Decimal t))].

Definition get_default (k : string) (d : dict) (default : pyval) : pyval :=
  match dict_get k d with
  | Some v => v
  | None => default
  end.

(** [cls( **data)]: a key that names no field is a TypeError, unexpected
    keyword argument; an absent field takes its default. *)
Definition ProductDetails_init (category : pyval) (unit_price : Decimal)
  (data : dict) : Exc ProductDetails :=
  if forallb (fun k => existsb (String.eqb k) field_names) (keys data)
  then Ok {| id := get_default "id" data VNone;
             name := get_default "name" data VNone;
             description := get_default "description" data VNone;
             category := category;
             quantity := get_default "quantity" data (VInt 0);
             unit_price := unit_price;
             details_url := get_default "details_url" data VNone;
             image_url := get_default "image_url" data VNone |}
  else Raise TypeError.

(** [ProductDetails.from_dict(data)].  On a value that is no dict every
    path ends in a TypeError: ['category' in data] on None or a number,
    [data['category']] on a str or a list, or [cls( **data)]. *)
Definition from_dict (data : pyval) : Exc ProductDetails :=
  match data with
  | VDict d =>
      c <- match dict_get "category" d with
           | Some (VStr s) =>
               match ProductCategory_of_value s with
               | Some c => Ok (VCategory c)
               | None => Raise ValueError
               end
           | Some v => Ok v
           | None => Ok (VCategory OTHER)
           end ;;
      u <- match dict_get "unit_price" d with
           | Some v => Decimal_of_str v
           | None => Ok (mkDecimal 0 (-2))
           end ;;
      ProductDetails_init c u d
  | _ => Raise TypeError
  end.

Definition to_json (self : ProductDetails) : Exc json_text :=
  d <- to_dict self ;;
  json_dumps (VDict d).

Definition from_json (json_str : json_text) : Exc ProductDetails :=
  from_dict (json_loads json_str).

(** ** The upstream network and the effects of the service

    One aiohttp call sends one request and awaits its outcome.  The network
    is any function from the calls made so far and the request to an
    outcome; the trace records when a request was issued and when its
    outcome arrived, in program order. *)

Inductive Method : Type := GET | POST | DELETE.

(** [json] is the serialized body of a POST. *)
Record Request : Type := mkRequest
  { method : Method;
    url : string;
    json : option json_text }.

(** [body] is what [await response.json()] returns, [None] when it raises. *)
Inductive HttpResult : Type :=
| Response (status : Z) (body : option pyval)
| ConnectionFailed.

Inductive Event : Type :=
| Issued (r : Request)
| Completed (r : Request) (res : HttpResult).

Inductive Level : Type := WARNING | ERROR.

(** A log record: the text of the f-string up to the exception or status
    it ends with, and that exception. *)
Record LogRecord : Type := mkLogRecord
  { level : Level;
    message : string;
    exc_info : option exn }.

Record State : Type := mkState
  { events : list Event;
    logs : list LogRecord }.

Definition Network : Type := list Event -> Request -> HttpResult.

Definition M (A : Type) : Type := Network -> State -> Exc A * State.

#[global] Instance M_Monad : Monad M :=
  {| ret := fun A (a : A) => fun _ st => (Ok a, st);
     bind := fun A B (m : M A) (f : A -> M B) => fun net st =>
               match m net st with
               | (Ok a, st') => f a net st'
               | (Raise e, st') => (Raise e, st')
               end |}.

Definition raise {A} (e : exn) : M A := fun _ st => (Raise e, st).

Definition lift {A} (x : Exc A) : M A := fun _ st => (x, st).

(** [try: body  except Exception as e: handler(e)] *)
Definition try_except {A} (body : M A) (handler : exn -> M A) : M A :=
  fun net st =>
    match body net st with
    | (Ok a, st') => (Ok a, st')
    | (Raise e, st') => handler e net st'
    end.

Definition log (lvl : Level) (msg : string) (e : option exn) : M unit :=
  fun _ st =>
    (Ok tt, {| events := events st;
               logs := (logs st ++ [mkLogRecord lvl msg e])%list |}).

Definition record (ev : Event) (st : State) : State :=
  {| events := (events st ++ [ev])%list; logs := logs st |}.

(** [async with session.request(...) as response]: the request goes out,
    the coroutine waits for the outcome, and a failure of the connection
    is raised. *)
Definition request (r : Request) : M (Z * option pyval) :=
  fun net st =>
    let st1 := record (Issued r) st in
    let res := net (events st) r in
    let st2 := record (Completed r res) st1 in
    match res with
    | Response status body => (Ok (status, body), st2)
    | ConnectionFailed => (Raise ClientError, st2)
    end.

(** [await response.json()] *)
Definition response_json (body : option pyval) : Exc pyval :=
  match body with
  | Some v => Ok v
  | None => Raise JSONDecodeError
  end.

(** [for x in v]: the items of a list, the keys of a dict, the characters
    of a str; nothing else is iterable. *)
Definition iterate (v : pyval) : Exc (list pyval) :=
  match v with
  | VList l => Ok l
  | VDict d => Ok (map VStr (keys d))
  | VStr s => Ok (map (fun c => VStr (String c EmptyString)) (list_ascii_of_string s))
  | _ => Raise TypeError
  end.

(** The requests issued in a trace, in order. *)
Fixpoint issued (evs : list Event) : list Request :=
  match evs with
  | [] => []
  | Issued r :: evs' => r :: issued evs'
  | Completed _ _ :: evs' => issued evs'
  end.

(** ** inventory_service.py *)

Record InventoryService : Type := mkInventoryService
  { orleans_base_url : string }.

(** [InventoryService()] *)
Definition InventoryService_default : InventoryService :=
  {| orleans_base_url := "http://localhost:5001" |}.

Definition category_products_url (self : InventoryService) (category : string) : string :=
  orleans_base_url self ++ "/api/inventory/" ++ category ++ "/products".

Definition product_url (self : InventoryService) (product_id : string) : string :=
  orleans_base_url self ++ "/api/products/" ++ product_id.

Definition category_product_url (self : InventoryService) (category product_id : string) : string :=
  orleans_base_url self ++ "/api/inventory/" ++ category ++ "/products/" ++ product_id.

Definition _get_products_by_category_async (self : InventoryService)
  (category : ProductCategory) : M (list ProductDetails) :=
  try_except
    (response <- request (mkRequest GET (category_products_url self (value category)) None) ;;
     let '(status, body) := response in
     if status =? 200 then
       products_data <- lift (response_json body) ;;
       items <- lift (iterate products_data) ;;
       lift (comprehension from_dict items)
     else
       log WARNING ("Failed to get products for " ++ value category) None ;;
       ret [])
    (fun e =>
       log ERROR ("Error calling Orleans service for category " ++ value category) (Some e) ;;
       ret []).

(** The body of the loop of [get_all_products_async]: the update of the
    set stands inside the [try], and what it added before it raised stays
    in [all_products]. *)
Definition get_all_products_step (self : InventoryService)
  (all_products : pyset ProductDetails) (category : ProductCategory)
  : M (pyset ProductDetails) :=
  fun net st =>
    match _get_products_by_category_async self category net st with
    | (Ok products, st') =>
        match set_update all_products products with
        | (s, None) => (Ok s, st')
        | (s, Some e) =>
            (log ERROR ("Failed to get products for category " ++ value category) (Some e) ;;
             ret s) net st'
        end
    | (Raise e, st') =>
        (log ERROR ("Failed to get products for category " ++ value category) (Some e) ;;
         ret all_products) net st'
    end.

Fixpoint get_all_products_loop (self : InventoryService)
  (categories : list ProductCategory) (all_products : pyset ProductDetails)
  : M (pyset ProductDetails) :=
  match categories with
  | [] => ret all_products
  | category :: rest =>
      s <- get_all_products_step self all_products category ;;
      get_all_products_loop self rest s
  end.

Definition get_all_products_async (self : InventoryService) : M (pyset ProductDetails) :=
  get_all_products_loop self ProductCategory_members [].

Definition get_product_count_async (self : InventoryService) : M Z :=
  products <- get_all_products_async self ;;
  ret (Z.of_nat (List.length products)).

Definition get_products_by_category_async (self : InventoryService)
  (category : ProductCategory) : M (list ProductDetails) :=
  _get_products_by_category_async self category.

(** [None] is the absent product. *)
Definition get_product_by_id_async (self : InventoryService)
  (product_id : string) : M (option ProductDetails) :=
  try_except
    (response <- request (mkRequest GET (product_url self product_id) None) ;;
     let '(status, body) := response in
     if status =? 200 then
       product_data <- lift (response_json body) ;;
       product <- lift (from_dict product_data) ;;
       ret (Some product)
     else if status =? 404 then
       ret None
     else
       log WARNING ("Failed to get product " ++ product_id) None ;;
       ret None)
    (fun e =>
       log ERROR ("Error getting product " ++ product_id) (Some e) ;;
       ret None).

Definition add_or_update_product_async (self : InventoryService)
  (product : ProductDetails) : M bool :=
  try_except
    (c <- lift (category_value product) ;;
     data <- lift (to_dict product) ;;
     payload <- lift (json_dumps (VDict data)) ;;
     response <- request (mkRequest POST (category_products_url self c) (Some payload)) ;;
     let '(status, _) := response in
     ret ((status =? 200) || (status =? 201)))
    (fun e =>
       log ERROR "Error adding/updating product" (Some e) ;;
       ret false).

Definition remove_product_async (self : InventoryService)
  (product_id : string) (category : ProductCategory) : M bool :=
  try_except
    (response <- request (mkRequest DELETE (category_product_url self (value category) product_id) None) ;;
     let '(status, _) := response in
     ret ((status =? 200) || (status =? 204)))
    (fun e =>
       log ERROR ("Error removing product " ++ product_id) (Some e) ;;
       ret false).

(** ** api.py *)

(** The pydantic models.  An inbound [ProductRequest] has passed
    validation when the handler runs, so its fields have their types. *)
Record ProductRequest : Type := mkProductRequest
  { req_id : option string;
    req_name : option string;
    req_description : option string;
    req_category : string;
    req_quantity : Z;
    req_unit_price : pyfloat;
    req_details_url : option string;
    req_image_url : option string }.

Record ProductResponse : Type := mkProductResponse
  { resp_id : option string;
    resp_name : option string;
    resp_description : option string;
    resp_category : string;
    resp_quantity : Z;
    resp_unit_price : pyfloat;
    resp_total_price : pyfloat;
    resp_details_url : option string;
    resp_image_url : option string }.

(** What a handler returns; the framework answers it with status 200. *)
Inductive Body : Type :=
| Product (p : ProductResponse)
| Products (l : list ProductResponse)
| Message (text : string).

(** Validation of an [Optional[str]] and of an [int] field of
    [ProductResponse]; a value of another type is refused (the coercions
    pydantic may apply are not modelled). *)
Definition optional_str (v : pyval) : Exc (option string) :=
  match v with
  | VNone => Ok None
  | VStr s => Ok (Some s)
  | _ => Raise ValidationError
  end.

Definition int_field (v : pyval) : Exc Z :=
  match v with
  | VInt z => Ok z
  | VBool b => Ok (Z.b2z b)
  | _ => Raise ValidationError
  end.

Definition of_optional_str (o : option string) : pyval :=
  match o with
  | Some s => VStr s
  | None => VNone
  end.

Definition product_to_response (product : ProductDetails) : Exc ProductResponse :=
  c <- category_value product ;;
  t <- total_price product ;;
  i <- optional_str (id product) ;;
  n <- optional_str (name product) ;;
  d <- optional_str (description product) ;;
  q <- int_field (quantity product) ;;
  du <- optional_str (details_url product) ;;
  iu <- optional_str (image_url product) ;;
  ret {| resp_id := i;
         resp_name := n;
         resp_description := d;
         resp_category := c;
         resp_quantity := q;
         resp_unit_price := float_of_Decimal (unit_price product);
         resp_total_price := float_of_Decimal t;
         resp_details_url := du;
         resp_image_url := iu |}.

(** [inventory_service = InventoryService()] *)
Definition inventory_service : InventoryService := InventoryService_default.

Definition HTTP_400_BAD_REQUEST : Z := 400.
Definition HTTP_404_NOT_FOUND : Z := 404.
Definition HTTP_500_INTERNAL_SERVER_ERROR : Z := 500.

(** [except HTTPException: raise] and then
    [except Exception as e: logger.error(...); raise HTTPException(500, ...)] *)
Definition handle_errors {A} (log_message detail : string) (body : M A) : M A :=
  try_except body
    (fun e =>
       match e with
       | HTTPException _ _ _ => raise e
       | Error e' =>
           log ERROR log_message (Some e) ;;
           raise (HTTPException HTTP_500_INTERNAL_SERVER_ERROR detail (Some e'))
       end).

(** [[c.value for c in ProductCategory]] as an f-string prints it. *)
Definition valid_categories : string :=
  "[" ++ String.concat ", " (map (fun c => "'" ++ value c ++ "'") ProductCategory_members) ++ "]".

(** The inner [try] of the three category routes. *)
Definition validate_category (category : string) : M ProductCategory :=
  match ProductCategory_of_value category with
  | Some product_category => ret product_category
  | None =>
      raise (HTTPException HTTP_400_BAD_REQUEST
               ("Invalid category: " ++ category ++ ". Valid categories: " ++ valid_categories)
               None)
  end.

(** GET /products/{product_id} *)
Definition get_product_by_id (product_id : string) : M Body :=
  handle_errors ("Error getting product " ++ product_id) "Failed to retrieve product: "
    (product <- get_product_by_id_async inventory_service product_id ;;
     match product with
     | None =>
         raise (HTTPException HTTP_404_NOT_FOUND
                  ("Product with ID " ++ product_id ++ " not found") None)
     | Some product =>
         r <- lift (product_to_response product) ;;
         ret (Product r)
     end).

(** GET /categories/{category}/products *)
Definition get_products_by_category (category : string) : M Body :=
  handle_errors ("Error getting products for category " ++ category)
    "Failed to retrieve products for category: "
    (product_category <- validate_category category ;;
     products <- get_products_by_category_async inventory_service product_category ;;
     l <- lift (comprehension product_to_response products) ;;
     ret (Products l)).

(** The record the POST route builds from the payload. *)
Definition product_of_request (product_category : ProductCategory)
  (product_request : ProductRequest) : Exc ProductDetails :=
  u <- Decimal_of_str (VFloat (req_unit_price product_request)) ;;
  ret {| id := of_optional_str (req_id product_request);
         name := of_optional_str (req_name product_request);
         description := of_optional_str (req_description product_request);
         category := VCategory product_category;
         quantity := VInt (req_quantity product_request);
         unit_price := u;
         details_url := of_optional_str (req_details_url product_request);
         image_url := of_optional_str (req_image_url product_request) |}.

(** POST /categories/{category}/products *)
Definition add_or_update_product (category : string)
  (product_request : ProductRequest) : M Body :=
  handle_errors "Error adding/updating product" "Failed to add or update product: "
    (product_category <- validate_category category ;;
     product <- lift (product_of_request product_category product_request) ;;
     success <- add_or_update_product_async inventory_service product ;;
     if negb success then
       raise (HTTPException HTTP_500_INTERNAL_SERVER_ERROR
                "Failed to add or update product" None)
     else
       r <- lift (product_to_response product) ;;
       ret (Product r)).

(** DELETE /categories/{category}/products/{product_id} *)
Definition remove_product (category product_id : string) : M Body :=
  handle_errors ("Error removing product " ++ product_id) "Failed to remove product: "
    (product_category <- validate_category category ;;
     success <- remove_product_async inventory_service product_id product_category ;;
     if negb success then
       raise (HTTPException HTTP_404_NOT_FOUND
                ("Product " ++ product_id ++ " not found or could not be removed") None)
     else
       ret (Message ("Product " ++ product_id ++ " removed successfully"))).

(** The status code the framework answers with: 200 for a returned body,
    the code of a raised [HTTPException]. *)
Definition http_status {A} (r : Exc A) : Z :=
  match r with
  | Ok _ => 200
  | Raise (HTTPException s _ _) => s
  | Raise (Error _) => 500
  end.

Definition initial : State := {| events := []; logs := [] |}.

(** ** inventory_service.py: the health check *)

(** The dict [health_check_async] returns, by its 'status': 'healthy'
    with 'product_count' and 'orleans_url', or 'unhealthy' with 'error',
    the text of the exception, and 'orleans_url'. *)
Inductive HealthReport : Type :=
| Healthy (product_count : Z) (orleans_url : string)
| Unhealthy (error : exn) (orleans_url : string).

Definition health_check_async (self : InventoryService) : M HealthReport :=
  try_except
    (product_count <- get_product_count_async self ;;
     ret (Healthy product_count (orleans_base_url self)))
    (fun e => ret (Unhealthy e (orleans_base_url self))).

(** ** api.py: GET /categories *)

(** The list under 'categories' in the dict the route returns. *)
Definition get_categories : list string :=
  map value ProductCategory_members.

(** ** telemetry.py *)

(** [os.environ] *)
Definition Environ : Type := string -> option string.

(** [os.getenv(key, default)] *)
Definition getenv (environ : Environ) (key default : string) : string :=
  match environ key with
  | Some v => v
  | None => default
  end.

(** [s.lower()] on the letters A to Z.  No character outside them lowers
    to a letter of 'true', the one string the result is compared with. *)
Definition lower_ascii (c : ascii) : ascii :=
  let n := nat_of_ascii c in
  if (Nat.leb 65 n && Nat.leb n 90)%bool then ascii_of_nat (n + 32) else c.

Fixpoint lower (s : string) : string :=
  match s with
  | EmptyString => EmptyString
  | String c s' => String (lower_ascii c) (lower s')
  end.

Record TelemetryConfig : Type := mkTelemetryConfig
  { service_name : string;
    service_version : string;
    environment : string;
    honeycomb_endpoint : string;
    honeycomb_api_key : option string;
    enable_debug : bool;
    service_instance_id : string }.

(** [get_telemetry_config()].  [nodename] is [os.uname().nodename], which
    is evaluated as the default of HOSTNAME before [os.getenv] is called:
    it raises AttributeError where the platform has no [os.uname]. *)
Definition get_telemetry_config (environ : Environ) (nodename : Exc string)
  : Exc TelemetryConfig :=
  n <- nodename ;;
  ret {| service_name := getenv environ "OTEL_SERVICE_NAME" "python-inventory";
         service_version := getenv environ "OTEL_SERVICE_VERSION" "1.0.0";
         environment := getenv environ "ENVIRONMENT" "development";
         honeycomb_endpoint :=
           getenv environ "OTEL_EXPORTER_OTLP_ENDPOINT" "https://api.honeycomb.io";
         honeycomb_api_key := environ "HONEYCOMB_API_KEY";
         enable_debug := String.eqb (lower (getenv environ "OTEL_DEBUG" "false")) "true";
         service_instance_id := getenv environ "HOSTNAME" n |}.

(** The instruments of a meter. *)
Inductive InstrumentKind : Type := Counter | UpDownCounter | Histogram.

Record Instrument : Type := mkInstrument
  { kind : InstrumentKind;
    instrument_name : string;
    instrument_description : string;
    instrument_unit : string }.

(** A meter: [create_counter], [create_up_down_counter] and
    [create_histogram], each of which may raise. *)
Record Meter : Type := mkMeter
  { create_counter : string -> string -> string -> Exc Instrument;
    create_up_down_counter : string -> string -> string -> Exc Instrument;
    create_histogram : string -> string -> string -> Exc Instrument }.

(** The dictionary of the custom metrics, by key. *)
Definition Metrics : Type := list (string * Instrument).

(** [create_custom_metrics(meter)]: the four instruments under their
    keys, or the empty dict when one creation raises.  The log lines of
    the module are left out. *)
Definition create_custom_metrics (meter : Meter) : Metrics :=
  match
    (inventory_operations_counter <-
       create_counter meter "inventory_operations_total"
         "Total number of inventory operations" "1" ;;
     product_count_gauge <-
       create_up_down_counter meter "inventory_products_total"
         "Current number of products in inventory" "1" ;;
     request_duration_histogram <-
       create_histogram meter "inventory_request_duration_seconds"
         "Duration of inventory service requests" "s" ;;
     orleans_integration_counter <-
       create_counter meter "orleans_integration_calls_total"
         "Total calls to Orleans service" "1" ;;
     ret [("operations", inventory_operations_counter);
          ("product_count", product_count_gauge);
          ("request_duration", request_duration_histogram);
          ("orleans_calls", orleans_integration_counter)])
  with
  | Ok metrics => metrics
  | Raise _ => []
  end.

(** ** api.py: GET /products *)

(** What may leave the [try] block of the route: an exception of the
    classes above, or the KeyError of [metrics[key]] on a missing key. *)
Inductive failure : Type :=
| Failure (e : exn)
| KeyError (key : string).

Inductive Outcome (A : Type) : Type :=
| Returned (a : A)
| Failed (f : failure).
Arguments Returned {A} a.
Arguments Failed {A} f.

(** [loop.time() - start_time]: the two readings of the clock; the
    subtraction of floats is not carried out. *)
Record Duration : Type := mkDuration
  { start_time : pyfloat;
    stop_time : pyfloat }.

(** The calls the route makes on the tracer, the span and the
    instruments.  [ExitSpan] is the end of the [with] block, with the
    exception that leaves it, if any. *)
Inductive TelemetryCall : Type :=
| StartSpan (name : string)
| AddAmount (i : Instrument) (amount : Z) (attributes : list (string * string))
| RecordValue (i : Instrument) (amount : Duration) (attributes : list (string * string))
| SetAttributes (product_count : Z) (request_duration : Duration) (success : bool)
| SetStatusError (description : failure)
| RecordException (f : failure)
| ExitSpan (escaped : option failure).

(** The clock of the event loop, read against the trace so far. *)
Definition Clock : Type := list Event -> pyfloat.

(** The effects of the route: those of the service, the telemetry calls
    and the clock. *)
Definition H (A : Type) : Type :=
  Clock -> Network -> State * list TelemetryCall ->
  Outcome A * (State * list TelemetryCall).

#[global] Instance H_Monad : Monad H :=
  {| ret := fun A (a : A) => fun _ _ w => (Returned a, w);
     bind := fun A B (m : H A) (f : A -> H B) => fun clock net w =>
               match m clock net w with
               | (Returned a, w') => f a clock net w'
               | (Failed e, w') => (Failed e, w')
               end |}.

Definition fail {A} (f : failure) : H A := fun _ _ w => (Failed f, w).

(** A call of the service inside the route. *)
Definition await {A} (m : M A) : H A :=
  fun _ net w =>
    match m net (fst w) with
    | (Ok a, st') => (Returned a, (st', snd w))
    | (Raise e, st') => (Failed (Failure e), (st', snd w))
    end.

Definition pure {A} (x : Exc A) : H A :=
  fun _ _ w =>
    match x with
    | Ok a => (Returned a, w)
    | Raise e => (Failed (Failure e), w)
    end.

Definition emit (c : TelemetryCall) : H unit :=
  fun _ _ w => (Returned tt, (fst w, (snd w ++ [c])%list)).

(** [asyncio.get_event_loop().time()] *)
Definition time : H pyfloat :=
  fun clock _ w => (Returned (clock (events (fst w))), w).

(** [metrics[key]] *)
Fixpoint lookup (metrics : Metrics) (key : string) : H Instrument :=
  match metrics with
  | [] => fail (KeyError key)
  | (k, i) :: metrics' => if String.eqb key k then ret i else lookup metrics' key
  end.

(** [i.add(amount, attributes)]: a histogram has no [add]. *)
Definition add (i : Instrument) (amount : Z) (attributes : list (string * string)) : H unit :=
  match kind i with
  | Histogram => fail (Failure AttributeError)
  | _ => emit (AddAmount i amount attributes)
  end.

(** [i.record(amount, attributes)]: only a histogram has [record]. *)
Definition record_value (i : Instrument) (amount : Duration)
  (attributes : list (string * string)) : H unit :=
  match kind i with
  | Histogram => emit (RecordValue i amount attributes)
  | _ => fail (Failure AttributeError)
  end.

(** [try: body  except Exception as e: handler(e)] in the route. *)
Definition try_except_failure {A} (body : H A) (handler : failure -> H A) : H A :=
  fun clock net w =>
    match body clock net w with
    | (Returned a, w') => (Returned a, w')
    | (Failed f, w') => handler f clock net w'
    end.

(** [with tracer.start_as_current_span(name) as span: body] *)
Definition with_span {A} (name : string) (body : H A) : H A :=
  fun clock net w =>
    match (emit (StartSpan name) ;; body) clock net w with
    | (Returned a, w') => (Returned a, (fst w', (snd w' ++ [ExitSpan None])%list))
    | (Failed f, w') => (Failed f, (fst w', (snd w' ++ [ExitSpan (Some f)])%list))
    end.

(** [logger.error(f"Error getting all products: {e}")] and the [detail]
    of the 500, where the text of a KeyError is its key in quotes. *)
Definition failure_text (prefix : string) (f : failure) : string * option exn :=
  match f with
  | Failure e => (prefix, Some e)
  | KeyError key => (prefix ++ ": '" ++ key ++ "'", None)
  end.

Definition failed_to_retrieve_products (f : failure) : exn :=
  match f with
  | Failure (Error e) => HTTPException 500 "Failed to retrieve products: " (Some e)
  | Failure (HTTPException _ _ _) => HTTPException 500 "Failed to retrieve products: " None
  | KeyError key =>
      HTTPException 500 ("Failed to retrieve products: '" ++ key ++ "'") None
  end.

(** GET /products, with the dictionary [metrics] that the module got from
    [get_custom_metrics()]. *)
Definition get_all_products (metrics : Metrics) : H Body :=
  with_span "get_all_products"
    (try_except_failure
       (start <- time ;;
        products <- await (get_all_products_async inventory_service) ;;
        stop <- time ;;
        let duration := mkDuration start stop in
        let count := Z.of_nat (List.length products) in
        operations <- lookup metrics "operations" ;;
        add operations 1 [("operation", "get_all_products")] ;;
        product_count <- lookup metrics "product_count" ;;
        add product_count count [("source", "get_all_products")] ;;
        request_duration <- lookup metrics "request_duration" ;;
        record_value request_duration duration [("operation", "get_all_products")] ;;
        emit (SetAttributes count duration true) ;;
        l <- pure (comprehension product_to_response products) ;;
        ret (Products l))
       (fun f =>
          let '(msg, e) := failure_text "Error getting all products" f in
          await (log ERROR msg e) ;;
          emit (SetStatusError f) ;;
          emit (RecordException f) ;;
          operations <- lookup metrics "operations" ;;
          add operations 1 [("operation", "get_all_products"); ("status", "error")] ;;
          fail (Failure (failed_to_retrieve_products f)))).

(** * Vocabulary of the statements *)

(** ** Requests and states *)

Definition list_request (self : InventoryService) (category : ProductCategory) : Request :=
  mkRequest GET (category_products_url self (value category)) None.

Definition get_request (self : InventoryService) (product_id : string) : Request :=
  mkRequest GET (product_url self product_id) None.

Definition post_request (self : InventoryService) (category : string)
  (payload : json_text) : Request :=
  mkRequest POST (category_products_url self category) (Some payload).

Definition delete_request (self : InventoryService) (category : ProductCategory)
  (product_id : string) : Request :=
  mkRequest DELETE (category_product_url self (value category) product_id) None.

(** The state after request [r] was issued and its outcome [res] arrived. *)
Definition after_call (r : Request) (res : HttpResult) (st : State) : State :=
  record (Completed r res) (record (Issued r) st).

(** The state after [msg] was logged at level ERROR for exception [e]. *)
Definition after_error (msg : string) (e : exn) (st : State) : State :=
  {| events := events st; logs := (logs st ++ [mkLogRecord ERROR msg (Some e)])%list |}.

(** The state after [msg] was logged at level WARNING. *)
Definition after_warning (msg : string) (st : State) : State :=
  {| events := events st; logs := (logs st ++ [mkLogRecord WARNING msg None])%list |}.

(** The events of querying the categories [cats] one after another, each
    answered before the next is issued, after the events [history]. *)
Fixpoint one_by_one (self : InventoryService) (net : Network) (history : list Event)
  (cats : list ProductCategory) : list Event :=
  match cats with
  | [] => []
  | c :: cats' =>
      let r := list_request self c in
      let call := [Issued r; Completed r (net history r)] in
      (call ++ one_by_one self net (history ++ call) cats')%list
  end.

(** ** Answers of the routes *)

(** The answer of the three category routes to a string that names no
    category. *)
Definition invalid_category (category : string) : exn :=
  HTTPException 400
    ("Invalid category: " ++ category ++ ". Valid categories: " ++ valid_categories)
    None.

(** The answer of GET /products/{product_id} for the absent product. *)
Definition not_found (product_id : string) : exn :=
  HTTPException 404 ("Product with ID " ++ product_id ++ " not found") None.

(** ** Shapes of a trace *)

(** No request is issued in [evs]. *)
Fixpoint all_completed (evs : list Event) : bool :=
  match evs with
  | [] => true
  | Issued _ :: _ => false
  | Completed _ _ :: evs' => all_completed evs'
  end.

(** A fan-out followed by a join: every request is issued before the
    first outcome is awaited. *)
Fixpoint fan_out_then_join (evs : list Event) : bool :=
  match evs with
  | [] => true
  | Issued _ :: evs' => fan_out_then_join evs'
  | Completed _ _ :: evs' => all_completed evs'
  end.

(** Each request is followed at once by its outcome. *)
Fixpoint each_awaited (evs : list Event) : bool :=
  match evs with
  | [] => true
  | Issued _ :: Completed _ _ :: evs' => each_awaited evs'
  | _ => false
  end.

(** ** Upstreams, payloads and records of the examples *)

(** Every upstream call answers 200 with an empty JSON array. *)
Definition net_empty : Network := fun _ _ => Response 200 (Some (VList [])).

(** Every upstream call answers [status], with no JSON body. *)
Definition net_status (status : Z) : Network := fun _ _ => Response status None.

(** The connection to the upstream fails on every call. *)
Definition net_down : Network := fun _ _ => ConnectionFailed.

(** A well-formed product and one of an unknown category. *)
Definition dune_json : pyval :=
  VDict [("id", VStr "b1"); ("name", VStr "Dune"); ("category", VStr "Books");
         ("quantity", VInt 3); ("unit_price", VFloat (PyFloat (mkDecimal 1999 (-2))))].

Definition toy_json : dict :=
  [("id", VStr "t1"); ("name", VStr "Kite"); ("category", VStr "Toys")].

(** The upstream holds one book and nothing else. *)
Definition net_one_book : Network := fun _ r =>
  if String.eqb (url r) (category_products_url inventory_service "Books")
  then Response 200 (Some (VList [dune_json]))
  else Response 200 (Some (VList [])).

(** The query for Accessories is answered 503, Books holds one book, the
    other six categories are empty. *)
Definition net_accessories_503 : Network := fun _ r =>
  if String.eqb (url r) (category_products_url inventory_service "Accessories")
  then Response 503 None
  else net_one_book [] r.

(** The record [from_dict] builds from [dune_json]. *)
Definition dune : ProductDetails :=
  {| id := VStr "b1"; name := VStr "Dune"; description := VNone;
     category := VCategory BOOKS; quantity := VInt 3;
     unit_price := mkDecimal 1999 (-2);
     details_url := VNone; image_url := VNone |}.

(** The record with quantity 3 at unit price 19.99. *)
Definition three_at_19_99 : ProductDetails :=
  {| id := VStr "abc123"; name := VStr "Dune"; description := VNone;
     category := VCategory BOOKS; quantity := VInt 3;
     unit_price := mkDecimal 1999 (-2);
     details_url := VNone; image_url := VNone |}.

(** An inbound payload: quantity 3 at unit price 19.99. *)
Definition sample_request : ProductRequest :=
  {| req_id := Some "abc123";
     req_name := Some "Dune";
     req_description := None;
     req_category := "Books";
     req_quantity := 3;
     req_unit_price := PyFloat (mkDecimal 1999 (-2));
     req_details_url := None;
     req_image_url := None |}.

(** An inbound payload with quantity -5 at unit price -1.5. *)
Definition negative_request : ProductRequest :=
  {| req_id := Some "abc123";
     req_name := Some "Dune";
     req_description := None;
     req_category := "Books";
     req_quantity := -5;
     req_unit_price := PyFloat (mkDecimal (-15) (-1));
     req_details_url := None;
     req_image_url := None |}.

(** ** The claims that fail, as the specification words them *)

(** C5 as the specification words it: absent exactly on an upstream 404,
    absent answered with 404, an upstream error answered with 500. *)
Definition get_by_id_as_specified (product_id : string) (net : Network) (st : State) : Prop :=
  let res := net (events st) (get_request inventory_service product_id) in
  let absent := fst (get_product_by_id_async inventory_service product_id net st) = Ok None in
  let answer := http_status (fst (get_product_by_id product_id net st)) in
  (absent <-> exists body, res = Response 404 body) /\
  (absent -> answer = 404) /\
  (res = ConnectionFailed \/
   (exists status body, res = Response status body /\ status <> 200 /\ status <> 404) ->
   answer = 500).

(** The POST route accepts a payload when it returns the record. *)
Definition accepted (category : string) (product_request : ProductRequest)
  (net : Network) (st : State) : Prop :=
  exists r, fst (add_or_update_product category product_request net st) = Ok (Product r).

(** [0 <= x] on a float. *)
Definition nonnegative (x : pyfloat) : Prop := 0 <= coefficient (repr x).

(** C8 as the specification words it. *)
Definition bounds_as_specified (category : string) (product_request : ProductRequest)
  (net : Network) (st : State) : Prop :=
  accepted category product_request net st ->
  0 <= req_quantity product_request /\ nonnegative (req_unit_price product_request).

(** C9 as the specification words it: the queries of list all are issued
    without waiting for one another and joined afterwards. *)
Definition fan_out_as_specified (net : Network) (st : State) : Prop :=
  forall evs,
    events (snd (get_all_products_async inventory_service net st))
      = (events st ++ evs)%list ->
    fan_out_then_join evs = true.

(** ** Further vocabulary *)

(** From state [st] to state [st'] one request was issued, [r]. *)
Definition sent_once (st st' : State) (r : Request) : Prop :=
  issued (events st') = (issued (events st) ++ [r])%list.

(** The route answers with one of the status codes [codes]: 200 for a
    returned body, the code of a raised [HTTPException]; an exception of
    another class does not leave the route. *)
Definition answers (r : Exc Body) (codes : list Z) : Prop :=
  match r with
  | Ok _ => In 200 codes
  | Raise (HTTPException s _ _) => In s codes
  | Raise (Error _) => False
  end.

(** The payload [r] with its 'category' field set to [x]. *)
Definition with_category (r : ProductRequest) (x : string) : ProductRequest :=
  {| req_id := req_id r;
     req_name := req_name r;
     req_description := req_description r;
     req_category := x;
     req_quantity := req_quantity r;
     req_unit_price := req_unit_price r;
     req_details_url := req_details_url r;
     req_image_url := req_image_url r |}.

(** [v] spells 'true' in some mix of upper and lower case. *)
Definition spells_true (v : string) : Prop :=
  exists a b c d : ascii,
    v = String a (String b (String c (String d EmptyString))) /\
    (a = "t" \/ a = "T")%char /\ (b = "r" \/ b = "R")%char /\
    (c = "u" \/ c = "U")%char /\ (d = "e" \/ d = "E")%char.

(** The instrument under [key] in the dictionary, if any. *)
Fixpoint instrument_at (metrics : Metrics) (key : string) : option Instrument :=
  match metrics with
  | [] => None
  | (k, i) :: metrics' => if String.eqb key k then Some i else instrument_at metrics' key
  end.

(** A meter that creates every instrument it is asked for, and one none. *)
Definition working_meter : Meter :=
  {| create_counter := fun n d u => Ok (mkInstrument Counter n d u);
     create_up_down_counter := fun n d u => Ok (mkInstrument UpDownCounter n d u);
     create_histogram := fun n d u => Ok (mkInstrument Histogram n d u) |}.

(** A meter whose histograms cannot be created. *)
Definition meter_without_histograms : Meter :=
  {| create_counter := fun n d u => Ok (mkInstrument Counter n d u);
     create_up_down_counter := fun n d u => Ok (mkInstrument UpDownCounter n d u);
     create_histogram := fun _ _ _ => Raise ValueError |}.

(** A clock that shows the number of events of the trace, in seconds. *)
Definition trace_clock : Clock :=
  fun evs => PyFloat (mkDecimal (Z.of_nat (List.length evs)) 0).

(** A product whose quantity is the JSON null. *)
Definition null_quantity_json : pyval :=
  VDict [("id", VStr "b2"); ("name", VStr "Emma"); ("category", VStr "Books");
         ("quantity", VNone)].

(** * Properties *)

(** ** The decimal context on small inputs *)

(** 3 * 2.675 = 8.025 rounds to 8.02, the even neighbour. *)
Example total_price_ties_to_even :
  Decimal_round2 (Decimal_mul_int 3 (mkDecimal 2675 (-3))) = Ok (mkDecimal 802 (-2)).
Proof. reflexivity. Qed.

(** 1E+30 has no two-decimal form within 28 digits. *)
Example total_price_too_many_digits :
  Decimal_round2 (Decimal_mul_int 1 (mkDecimal 1 30)) = Raise InvalidOperation.
Proof. reflexivity. Qed.

Example Decimal_of_string_grouped :
  Decimal_of_string " 1_2.5e1 " = Ok (mkDecimal 125 0).
Proof. reflexivity. Qed.

Example Decimal_of_string_word :
  Decimal_of_string "abc" = Raise InvalidOperation.
Proof. reflexivity. Qed.

(** ** Category validation *)

Lemma ProductCategory_of_value_value (c : ProductCategory) :
  ProductCategory_of_value (value c) = Some c.
Proof. destruct c; reflexivity. Qed.

Lemma ProductCategory_of_value_Some (s : string) (c : ProductCategory) :
  ProductCategory_of_value s = Some c -> value c = s.
Proof.
  unfold ProductCategory_of_value. intros H.
  apply find_some in H. destruct H as [_ H].
  now apply String.eqb_eq.
Qed.

Lemma ProductCategory_of_value_None (s : string) :
  (forall c, value c <> s) -> ProductCategory_of_value s = None.
Proof.
  intros H.
  destruct (ProductCategory_of_value s) as [c|] eqn:E; [|reflexivity].
  apply ProductCategory_of_value_Some in E. now destruct (H c).
Qed.

Lemma validate_category_invalid (category : string) (net : Network) (st : State) :
  ProductCategory_of_value category = None ->
  validate_category category net st = (Raise (invalid_category category), st).
Proof. intros H. unfold validate_category. now rewrite H. Qed.

Lemma validate_category_valid (c : ProductCategory) (net : Network) (st : State) :
  validate_category (value c) net st = (Ok c, st).
Proof. unfold validate_category. now rewrite ProductCategory_of_value_value. Qed.

(** C1. For a category string that is the value of no member of
    ProductCategory, the list-by-category, upsert and remove routes raise
    HTTPException 400 and leave the state as it was: no request has been
    issued upstream, nothing has been logged. *)
Theorem invalid_category_fails_before_any_upstream_call :
  forall (category product_id : string) (product_request : ProductRequest)
         (net : Network) (st : State),
    (forall c, value c <> category) ->
    get_products_by_category category net st = (Raise (invalid_category category), st) /\
    add_or_update_product category product_request net st
      = (Raise (invalid_category category), st) /\
    remove_product category product_id net st = (Raise (invalid_category category), st) /\
    http_status (A := Body) (Raise (invalid_category category)) = HTTP_400_BAD_REQUEST.
Proof.
  intros category product_id product_request net st H.
  apply ProductCategory_of_value_None in H.
  unfold get_products_by_category, add_or_update_product, remove_product,
    handle_errors, try_except.
  cbn [bind M_Monad].
  rewrite (validate_category_invalid category net st H).
  repeat split.
Qed.

Lemma not_a_category_lowercase : forall c, value c <> "books".
Proof. intros c; destruct c; discriminate. Qed.

Lemma invalid_category_fails_before_any_upstream_call_witness :
  get_products_by_category "books" net_empty initial
    = (Raise (invalid_category "books"), initial) /\
  add_or_update_product "books" sample_request net_empty initial
    = (Raise (invalid_category "books"), initial) /\
  remove_product "books" "abc123" net_empty initial
    = (Raise (invalid_category "books"), initial) /\
  http_status (A := Body) (Raise (invalid_category "books")) = HTTP_400_BAD_REQUEST.
Proof.
  apply (invalid_category_fails_before_any_upstream_call
           "books" "abc123" sample_request net_empty initial not_a_category_lowercase).
Defined.

(** ** One upstream call *)

Lemma issued_app (evs evs' : list Event) :
  issued (evs ++ evs') = (issued evs ++ issued evs')%list.
Proof.
  induction evs as [|[r|r res] evs IH]; cbn; [reflexivity| |assumption].
  now rewrite IH.
Qed.

(** ** DELETE /categories/{category}/products/{product_id} *)

Lemma remove_product_async_eq (self : InventoryService) (product_id : string)
      (category : ProductCategory) (net : Network) (st : State) :
  let r := delete_request self category product_id in
  remove_product_async self product_id category net st =
  match net (events st) r with
  | Response status body =>
      (Ok ((status =? 200) || (status =? 204)), after_call r (Response status body) st)
  | ConnectionFailed =>
      (Ok false,
       after_error ("Error removing product " ++ product_id) ClientError
         (after_call r ConnectionFailed st))
  end.
Proof.
  unfold remove_product_async, try_except, request, delete_request.
  cbn [bind M_Monad].
  destruct (net (events st) _); reflexivity.
Qed.

(** C7. With a valid category, when the upstream DELETE answers 200 or
    204 the route returns the success message (status 200); when it
    answers any other status, 404 among them, the route raises
    HTTPException 404. *)
Theorem remove_product_status :
  forall (category : ProductCategory) (product_id : string)
         (net : Network) (st : State) (status : Z) (body : option pyval),
    let r := delete_request inventory_service category product_id in
    let answer := remove_product (value category) product_id net st in
    net (events st) r = Response status body ->
    snd answer = after_call r (Response status body) st /\
    (status = 200 \/ status = 204 ->
     fst answer = Ok (Message ("Product " ++ product_id ++ " removed successfully")) /\
     http_status (fst answer) = 200) /\
    (status <> 200 -> status <> 204 ->
     fst answer = Raise (HTTPException 404
                           ("Product " ++ product_id ++ " not found or could not be removed")
                           None) /\
     http_status (fst answer) = 404).
Proof.
  intros category product_id net st status body r answer H.
  subst answer.
  unfold remove_product, handle_errors, try_except.
  cbn [bind M_Monad].
  rewrite validate_category_valid, remove_product_async_eq.
  fold r. rewrite H.
  destruct ((status =? 200) || (status =? 204)) eqn:E; cbn.
  - split; [reflexivity|]. split; [now intros _|].
    intros H200 H204. apply Z.eqb_neq in H200, H204.
    now rewrite H200, H204 in E.
  - split; [reflexivity|]. split; [|now intros _ _].
    intros [-> | ->]; discriminate.
Qed.

Lemma remove_product_status_witness :
  fst (remove_product "Books" "abc123" (net_status 204) initial)
    = Ok (Message "Product abc123 removed successfully") /\
  http_status (fst (remove_product "Books" "abc123" (net_status 404) initial)) = 404.
Proof.
  split.
  - apply (remove_product_status BOOKS "abc123" (net_status 204) initial 204 None eq_refl).
    right; reflexivity.
  - apply (remove_product_status BOOKS "abc123" (net_status 404) initial 404 None eq_refl);
      discriminate.
Defined.

(** ** GET /products/{product_id} *)

Lemma get_product_by_id_async_eq (self : InventoryService) (product_id : string)
      (net : Network) (st : State) :
  let r := get_request self product_id in
  let failed e st' := (Ok None, after_error ("Error getting product " ++ product_id) e st') in
  get_product_by_id_async self product_id net st =
  match net (events st) r with
  | Response status body =>
      let st' := after_call r (Response status body) st in
      if status =? 200 then
        match response_json body with
        | Ok product_data =>
            match from_dict product_data with
            | Ok product => (Ok (Some product), st')
            | Raise e => failed e st'
            end
        | Raise e => failed e st'
        end
      else if status =? 404 then (Ok None, st')
      else (Ok None, after_warning ("Failed to get product " ++ product_id) st')
  | ConnectionFailed => failed (Error ClientError) (after_call r ConnectionFailed st)
  end.
Proof.
  unfold get_product_by_id_async, try_except, request, get_request.
  cbn [bind M_Monad].
  destruct (net (events st) _) as [status body|]; [|reflexivity].
  cbn. destruct (status =? 200).
  - destruct body as [product_data|]; cbn; [|reflexivity].
    destruct (from_dict product_data); reflexivity.
  - destruct (status =? 404); reflexivity.
Qed.

(** The service never raises: it answers a product or the absent one. *)
Lemma get_product_by_id_async_returns (self : InventoryService) (product_id : string)
      (net : Network) (st : State) :
  exists o, fst (get_product_by_id_async self product_id net st) = Ok o.
Proof.
  rewrite get_product_by_id_async_eq. cbv zeta.
  destruct (net (events st) _) as [status body|]; [|now exists None].
  destruct (status =? 200).
  - destruct (response_json body) as [product_data|]; [|now exists None].
    destruct (from_dict product_data) as [product|]; [now exists (Some product)|now exists None].
  - destruct (status =? 404); now exists None.
Qed.

(** C5, counterexample.  When the upstream answers 503 the service returns
    the absent product and the route answers 404, not 500. *)
Lemma get_by_id_upstream_503 :
  ~ get_by_id_as_specified "abc123" (net_status 503) initial.
Proof.
  intros [_ [_ H]].
  assert (E : http_status (fst (get_product_by_id "abc123" (net_status 503) initial)) = 500).
  { apply H. right. exists 503, None. repeat split; discriminate. }
  vm_compute in E. discriminate.
Qed.

(** C5, amended.  The service returns the absent product whenever the
    upstream does not answer 200: on a 404, on any other status and when
    the connection fails; and whenever the service returns the absent
    product the route raises HTTPException 404.  An upstream error is
    therefore answered with 404. *)
Theorem get_by_id_absent_is_404 :
  forall (product_id : string) (net : Network) (st : State),
    let res := net (events st) (get_request inventory_service product_id) in
    let absent := fst (get_product_by_id_async inventory_service product_id net st) = Ok None in
    ((forall body, res <> Response 200 body) -> absent) /\
    (absent ->
     fst (get_product_by_id product_id net st) = Raise (not_found product_id) /\
     http_status (fst (get_product_by_id product_id net st)) = HTTP_404_NOT_FOUND).
Proof.
  intros product_id net st res absent. subst res absent. split.
  - intros H. rewrite get_product_by_id_async_eq. cbv zeta.
    destruct (net (events st) _) as [status body|]; [|reflexivity].
    destruct (status =? 200) eqn:E.
    + apply Z.eqb_eq in E. subst status. now destruct (H body).
    + destruct (status =? 404); reflexivity.
  - unfold get_product_by_id, handle_errors, try_except.
    cbn [bind M_Monad].
    destruct (get_product_by_id_async inventory_service product_id net st) as [[o|e] st'].
    + cbn. intros H. injection H as ->. cbn. split; reflexivity.
    + discriminate.
Qed.

Lemma get_by_id_absent_is_404_witness :
  fst (get_product_by_id "abc123" (net_status 503) initial) = Raise (not_found "abc123") /\
  http_status (fst (get_product_by_id "abc123" net_down initial)) = 404.
Proof.
  split.
  - apply (get_by_id_absent_is_404 "abc123" (net_status 503) initial).
    apply (get_by_id_absent_is_404 "abc123" (net_status 503) initial).
    intros body; discriminate.
  - apply (get_by_id_absent_is_404 "abc123" net_down initial).
    apply (get_by_id_absent_is_404 "abc123" net_down initial).
    intros body; discriminate.
Defined.

(** ** POST /categories/{category}/products *)

Lemma add_or_update_product_async_eq (self : InventoryService) (product : ProductDetails)
      (net : Network) (st : State) :
  let failed e st' := (Ok false, after_error "Error adding/updating product" e st') in
  add_or_update_product_async self product net st =
  match category_value product with
  | Raise e => failed e st
  | Ok c =>
      match to_json product with
      | Raise e => failed e st
      | Ok payload =>
          let r := post_request self c payload in
          match net (events st) r with
          | Response status body =>
              (Ok ((status =? 200) || (status =? 201)), after_call r (Response status body) st)
          | ConnectionFailed => failed (Error ClientError) (after_call r ConnectionFailed st)
          end
      end
  end.
Proof.
  unfold add_or_update_product_async, try_except, request, lift, post_request, to_json.
  cbn [bind M_Monad Exc_Monad].
  destruct (category_value product) as [c|e]; [|reflexivity].
  destruct (to_dict product) as [data|e]; [|reflexivity].
  destruct (json_dumps (VDict data)) as [payload|e]; [|reflexivity].
  destruct (net (events st) _); reflexivity.
Qed.

Lemma product_of_request_eq (category : ProductCategory) (product_request : ProductRequest) :
  product_of_request category product_request =
  Ok {| id := of_optional_str (req_id product_request);
        name := of_optional_str (req_name product_request);
        description := of_optional_str (req_description product_request);
        category := VCategory category;
        quantity := VInt (req_quantity product_request);
        unit_price := repr (req_unit_price product_request);
        details_url := of_optional_str (req_details_url product_request);
        image_url := of_optional_str (req_image_url product_request) |}.
Proof.
  unfold product_of_request. now destruct (req_unit_price product_request).
Qed.

Lemma optional_str_of_optional_str (o : option string) :
  optional_str (of_optional_str o) = Ok o.
Proof. now destruct o. Qed.

(** The route up to the call of the service. *)
Lemma add_or_update_product_eq (category : ProductCategory) (product_request : ProductRequest)
      (product : ProductDetails) (net : Network) (st : State) :
  product_of_request category product_request = Ok product ->
  add_or_update_product (value category) product_request net st =
  match add_or_update_product_async inventory_service product net st with
  | (Ok true, st') =>
      match product_to_response product with
      | Ok r => (Ok (Product r), st')
      | Raise (Error e) =>
          (Raise (HTTPException 500 "Failed to add or update product: " (Some e)),
           after_error "Error adding/updating product" e st')
      | Raise e => (Raise e, st')
      end
  | (Ok false, st') =>
      (Raise (HTTPException 500 "Failed to add or update product" None), st')
  | (Raise (Error e), st') =>
      (Raise (HTTPException 500 "Failed to add or update product: " (Some e)),
       after_error "Error adding/updating product" e st')
  | (Raise e, st') => (Raise e, st')
  end.
Proof.
  intros H.
  unfold add_or_update_product, handle_errors, try_except.
  cbn [bind M_Monad].
  rewrite validate_category_valid. unfold lift at 1. rewrite H.
  generalize (product_to_response product). intros response.
  destruct (add_or_update_product_async inventory_service product net st)
    as [[[|]|[e|s d c]] st']; cbn; try reflexivity.
  destruct response as [r|[e|s d c]]; reflexivity.
Qed.

(** C6. The upsert of the service returns a bool, and it returns true if
    and only if the record was serialized, the POST was sent and the
    upstream answered it with 200 or 201; any other status and a failed
    connection give false.  When it returns false for the record the POST
    route built, the route raises HTTPException 500. *)
Theorem upsert_true_iff_upstream_200_or_201 :
  forall (product : ProductDetails) (net : Network) (st : State),
    let result := add_or_update_product_async inventory_service product net st in
    (fst result = Ok true \/ fst result = Ok false) /\
    (fst result = Ok true <->
     exists c payload status body,
       category_value product = Ok c /\ to_json product = Ok payload /\
       net (events st) (post_request inventory_service c payload) = Response status body /\
       (status = 200 \/ status = 201)) /\
    (forall (category : ProductCategory) (product_request : ProductRequest),
       product_of_request category product_request = Ok product ->
       fst result = Ok false ->
       add_or_update_product (value category) product_request net st
         = (Raise (HTTPException HTTP_500_INTERNAL_SERVER_ERROR
                     "Failed to add or update product" None), snd result)).
Proof.
  intros product net st result.
  assert (E := add_or_update_product_async_eq inventory_service product net st).
  cbv zeta in E. fold result in E.
  split; [|split].
  - rewrite E.
    destruct (category_value product) as [c|e]; [|now right].
    destruct (to_json product) as [payload|e]; [|now right].
    destruct (net (events st) _) as [status body|]; [|now right].
    cbn. destruct ((status =? 200) || (status =? 201)); [now left|now right].
  - split.
    + rewrite E.
      destruct (category_value product) as [c|e]; [|discriminate].
      destruct (to_json product) as [payload|e]; [|discriminate].
      destruct (net (events st) _) as [status body|] eqn:N; [|discriminate].
      cbn. intros H. injection H as H.
      exists c, payload, status, body. repeat split; try assumption.
      apply orb_true_iff in H. destruct H as [H|H]; apply Z.eqb_eq in H; auto.
    + intros (c & payload & status & body & Hc & Hd & N & Hs).
      rewrite E, Hc, Hd, N. cbn.
      destruct Hs as [-> | ->]; reflexivity.
  - intros category product_request Hp Hf.
    rewrite (add_or_update_product_eq category product_request product net st Hp).
    fold result. destruct result as [[[|]|e] st']; cbn in *; try discriminate.
    reflexivity.
Qed.

Lemma upsert_true_iff_upstream_200_or_201_witness :
  http_status (fst (add_or_update_product "Books" sample_request (net_status 400) initial))
    = 500.
Proof.
  set (product := {| id := VStr "abc123"; name := VStr "Dune"; description := VNone;
                     category := VCategory BOOKS; quantity := VInt 3;
                     unit_price := mkDecimal 1999 (-2);
                     details_url := VNone; image_url := VNone |}).
  destruct (upsert_true_iff_upstream_200_or_201 product (net_status 400) initial)
    as [_ [_ H]].
  pose proof (H BOOKS sample_request eq_refl eq_refl) as E.
  change (value BOOKS) with "Books" in E.
  rewrite E. reflexivity.
Defined.

(** ** Bounds on an inbound record *)

(** C8, counterexample.  A payload with quantity -5 and unit price -1.5
    is accepted when the upstream answers the POST with 201. *)
Lemma negative_request_accepted :
  ~ bounds_as_specified "Books" negative_request (net_status 201) initial.
Proof.
  intros H.
  assert (A : accepted "Books" negative_request (net_status 201) initial).
  { eexists. vm_compute. reflexivity. }
  destruct (H A) as [Q _]. cbn in Q. lia.
Qed.

Lemma product_to_response_of_request (category : ProductCategory)
      (product_request : ProductRequest) (product : ProductDetails) (t : Decimal) :
  product_of_request category product_request = Ok product ->
  total_price product = Ok t ->
  product_to_response product =
  Ok {| resp_id := req_id product_request;
        resp_name := req_name product_request;
        resp_description := req_description product_request;
        resp_category := value category;
        resp_quantity := req_quantity product_request;
        resp_unit_price := req_unit_price product_request;
        resp_total_price := float_of_Decimal t;
        resp_details_url := req_details_url product_request;
        resp_image_url := req_image_url product_request |}.
Proof.
  rewrite product_of_request_eq. intros H Ht. injection H as <-.
  unfold product_to_response. cbn [bind Exc_Monad].
  rewrite Ht. cbn.
  rewrite !optional_str_of_optional_str.
  now destruct (req_unit_price product_request).
Qed.

Lemma to_json_total_price (product : ProductDetails) (payload : json_text) :
  to_json product = Ok payload -> exists t, total_price product = Ok t.
Proof.
  unfold to_json, to_dict. cbn [bind Exc_Monad].
  destruct (category_value product); [|discriminate].
  destruct (total_price product) as [t|]; [now exists t|discriminate].
Qed.

(** C8, amended.  The POST route checks no bound on quantity or
    unit_price.  With a valid category, whatever their signs, when the
    record serializes and the upstream answers the POST with 200 or 201,
    the payload is accepted and the route returns the record with the
    quantity and the unit price as they were sent. *)
Theorem inbound_record_accepted_without_bounds :
  forall (category : ProductCategory) (product_request : ProductRequest)
         (product : ProductDetails) (payload : json_text)
         (net : Network) (st : State) (status : Z) (body : option pyval),
    product_of_request category product_request = Ok product ->
    to_json product = Ok payload ->
    net (events st) (post_request inventory_service (value category) payload)
      = Response status body ->
    status = 200 \/ status = 201 ->
    exists r,
      fst (add_or_update_product (value category) product_request net st) = Ok (Product r) /\
      resp_quantity r = req_quantity product_request /\
      resp_unit_price r = req_unit_price product_request.
Proof.
  intros category product_request product payload net st status body Hp Hd N Hs.
  destruct (to_json_total_price product payload Hd) as [t Ht].
  rewrite (add_or_update_product_eq category product_request product net st Hp).
  rewrite add_or_update_product_async_eq. cbv zeta.
  assert (Hc : category_value product = Ok (value category)).
  { rewrite product_of_request_eq in Hp. now injection Hp as <-. }
  rewrite Hc, Hd, N.
  replace ((status =? 200) || (status =? 201)) with true
    by (destruct Hs as [-> | ->]; reflexivity).
  rewrite (product_to_response_of_request category product_request product t Hp Ht).
  eexists. cbn. repeat split.
Qed.

Lemma inbound_record_accepted_without_bounds_witness :
  exists r,
    fst (add_or_update_product "Books" negative_request (net_status 201) initial)
      = Ok (Product r) /\
    resp_quantity r = -5 /\
    resp_unit_price r = PyFloat (mkDecimal (-15) (-1)).
Proof.
  refine (inbound_record_accepted_without_bounds BOOKS negative_request _ _
            (net_status 201) initial 201 None eq_refl eq_refl eq_refl _).
  right; reflexivity.
Defined.

(** ** List by category *)

Lemma _get_products_by_category_async_eq (self : InventoryService)
      (category : ProductCategory) (net : Network) (st : State) :
  let r := list_request self category in
  let failed e st' :=
    (Ok [], after_error ("Error calling Orleans service for category " ++ value category) e st') in
  _get_products_by_category_async self category net st =
  match net (events st) r with
  | Response status body =>
      let st' := after_call r (Response status body) st in
      if status =? 200 then
        match response_json body with
        | Ok products_data =>
            match iterate products_data with
            | Ok items =>
                match comprehension from_dict items with
                | Ok products => (Ok products, st')
                | Raise e => failed e st'
                end
            | Raise e => failed e st'
            end
        | Raise e => failed e st'
        end
      else (Ok [], after_warning ("Failed to get products for " ++ value category) st')
  | ConnectionFailed => failed (Error ClientError) (after_call r ConnectionFailed st)
  end.
Proof.
  unfold _get_products_by_category_async, try_except, request, list_request.
  cbn [bind M_Monad].
  destruct (net (events st) _) as [status body|]; [|reflexivity].
  cbn. destruct (status =? 200); [|reflexivity].
  destruct body as [products_data|]; cbn; [|reflexivity].
  destruct (iterate products_data) as [items|]; cbn; [|reflexivity].
  destruct (comprehension from_dict items); reflexivity.
Qed.

(** The client never raises, and one call is all it makes. *)
Lemma _get_products_by_category_async_returns (self : InventoryService)
      (category : ProductCategory) (net : Network) (st : State) :
  let r := list_request self category in
  exists products st',
    _get_products_by_category_async self category net st = (Ok products, st') /\
    events st' = (events st ++ [Issued r; Completed r (net (events st) r)])%list.
Proof.
  rewrite _get_products_by_category_async_eq. cbv zeta.
  assert (Ev : forall res,
             events (after_call (list_request self category) res st)
             = (events st ++ [Issued (list_request self category);
                              Completed (list_request self category) res])%list).
  { intros res. unfold after_call, record; cbn. now rewrite <- app_assoc. }
  destruct (net (events st) _) as [status body|];
    [|eexists; eexists; split; [reflexivity|apply Ev]].
  destruct (status =? 200); [|eexists; eexists; split; [reflexivity|apply Ev]].
  destruct (response_json body) as [products_data|];
    [|eexists; eexists; split; [reflexivity|apply Ev]].
  destruct (iterate products_data) as [items|];
    [|eexists; eexists; split; [reflexivity|apply Ev]].
  destruct (comprehension from_dict items);
    eexists; eexists; (split; [reflexivity|apply Ev]).
Qed.

Lemma comprehension_raises {A B : Type} (f : A -> Exc B) (l : list A) (x : A) (e : exn) :
  In x l -> f x = Raise e -> exists e', comprehension f l = Raise e'.
Proof.
  intros Hin Hx. induction l as [|y l IH]; [contradiction|].
  cbn. destruct Hin as [-> | Hin].
  - rewrite Hx. now exists e.
  - destruct (f y) as [b|e1]; [|now exists e1].
    destruct (IH Hin) as [e' ->]. now exists e'.
Qed.

(** C10. [from_dict] raises ValueError on every dict whose 'category' is
    a string that is the value of no member of ProductCategory; and when
    the 200 answer to a list-by-category call is a JSON array that holds
    such a dict, the client returns the empty list for the category,
    whatever the other elements of the array are. *)
Theorem unknown_category_discards_the_category :
  forall (data : dict) (s : string),
    dict_get "category" data = Some (VStr s) ->
    (forall c, value c <> s) ->
    from_dict (VDict data) = Raise ValueError /\
    forall (self : InventoryService) (category : ProductCategory)
           (net : Network) (st : State) (items : list pyval),
      net (events st) (list_request self category) = Response 200 (Some (VList items)) ->
      In (VDict data) items ->
      fst (_get_products_by_category_async self category net st) = Ok [] /\
      fst (get_products_by_category_async self category net st) = Ok [].
Proof.
  intros data s Hget Hs.
  assert (F : from_dict (VDict data) = Raise ValueError).
  { unfold from_dict. rewrite Hget, (ProductCategory_of_value_None s Hs). reflexivity. }
  split; [exact F|].
  intros self category net st items N Hin.
  unfold get_products_by_category_async.
  rewrite _get_products_by_category_async_eq. cbv zeta. rewrite N. cbn.
  destruct (comprehension_raises from_dict items (VDict data) ValueError Hin F) as [e ->].
  split; reflexivity.
Qed.

Lemma not_a_category_toys : forall c, value c <> "Toys".
Proof. intros c; destruct c; discriminate. Qed.

Lemma unknown_category_discards_the_category_witness :
  from_dict (VDict toy_json) = Raise ValueError /\
  fst (_get_products_by_category_async inventory_service BOOKS
         (fun _ _ => Response 200 (Some (VList [dune_json; VDict toy_json]))) initial)
    = Ok [].
Proof.
  destruct (unknown_category_discards_the_category toy_json "Toys" eq_refl
              not_a_category_toys) as [F H].
  split; [exact F|].
  apply (H inventory_service BOOKS
           (fun _ _ => Response 200 (Some (VList [dune_json; VDict toy_json]))) initial
           [dune_json; VDict toy_json] eq_refl).
  right; left; reflexivity.
Defined.

(** ** List all *)

(** No record can enter a set: the first element of the update raises. *)
Lemma set_update_unhashable (s : pyset ProductDetails) (l : list ProductDetails) :
  set_update s l = (s, match l with
                       | [] => None
                       | _ :: _ => Some (Error TypeError)
                       end).
Proof. now destruct l. Qed.

Lemma get_all_products_step_eq (self : InventoryService) (s : pyset ProductDetails)
      (category : ProductCategory) (net : Network) (st : State) :
  exists st',
    get_all_products_step self s category net st = (Ok s, st') /\
    events st' = (events st ++ one_by_one self net (events st) [category])%list.
Proof.
  unfold get_all_products_step.
  destruct (_get_products_by_category_async_returns self category net st)
    as (products & st1 & -> & Ev).
  rewrite set_update_unhashable.
  destruct products; cbn; eexists; (split; [reflexivity|]); cbn; exact Ev.
Qed.

Lemma get_all_products_loop_eq (self : InventoryService) (cats : list ProductCategory) :
  forall (s : pyset ProductDetails) (net : Network) (st : State),
  exists st',
    get_all_products_loop self cats s net st = (Ok s, st') /\
    events st' = (events st ++ one_by_one self net (events st) cats)%list.
Proof.
  induction cats as [|c cats IH]; intros s net st.
  - exists st. split; [reflexivity|]. cbn. now rewrite app_nil_r.
  - cbn [get_all_products_loop bind M_Monad].
    destruct (get_all_products_step_eq self s c net st) as (st1 & -> & Ev1).
    destruct (IH s net st1) as (st2 & -> & Ev2).
    exists st2. split; [reflexivity|].
    rewrite Ev2, Ev1. cbn. rewrite <- !app_assoc. reflexivity.
Qed.

(** [get_all_products_async] returns, and what it returns is the empty
    set, whatever the upstream answers. *)
Lemma get_all_products_async_empty (self : InventoryService) (net : Network) (st : State) :
  fst (get_all_products_async self net st) = Ok [].
Proof.
  unfold get_all_products_async.
  now destruct (get_all_products_loop_eq self ProductCategory_members [] net st)
    as (st' & -> & _).
Qed.

Lemma issued_one_by_one (self : InventoryService) (net : Network) (cats : list ProductCategory) :
  forall history,
    issued (one_by_one self net history cats) = map (list_request self) cats.
Proof.
  induction cats as [|c cats IH]; intros history; [reflexivity|].
  cbn. now rewrite IH.
Qed.

(** One list-by-category request per member of the enumeration, in the
    order of the enumeration. *)
Lemma get_all_products_async_one_call_per_member (self : InventoryService)
      (net : Network) (st : State) :
  issued (events (snd (get_all_products_async self net st)))
  = (issued (events st) ++ map (list_request self) ProductCategory_members)%list.
Proof.
  unfold get_all_products_async.
  destruct (get_all_products_loop_eq self ProductCategory_members [] net st)
    as (st' & -> & Ev).
  cbn [snd]. now rewrite Ev, issued_app, issued_one_by_one.
Qed.

(** C2, at an upstream that holds one book.  [get_all_products_async]
    issues one list-by-category request per member of ProductCategory,
    and the query for Books returns the one record; but the set it
    returns is empty, where the distinct records are one: the update of
    the set raised TypeError, which the loop logged. *)
Theorem get_all_products_async_one_book :
  let result := get_all_products_async inventory_service net_one_book initial in
  issued (events (snd result))
    = map (list_request inventory_service) ProductCategory_members /\
  fst (get_products_by_category_async inventory_service BOOKS net_one_book initial)
    = Ok [dune] /\
  py_hash dune = Raise TypeError /\
  fst result = Ok [] /\
  logs (snd result)
    = [mkLogRecord ERROR "Failed to get products for category Books" (Some (Error TypeError))].
Proof. vm_compute. repeat split. Qed.

(** C3, at an upstream where Accessories fails and the other seven
    categories succeed.  [get_all_products_async] does not raise and the
    failing category contributes nothing; but the set it returns is
    empty, while the union of the seven successful results holds the
    book. *)
Theorem get_all_products_async_one_category_down :
  let result := get_all_products_async inventory_service net_accessories_503 initial in
  fst (get_products_by_category_async inventory_service ACCESSORIES
         net_accessories_503 initial) = Ok [] /\
  fst (get_products_by_category_async inventory_service BOOKS
         net_accessories_503 initial) = Ok [dune] /\
  fst result = Ok [].
Proof. vm_compute. repeat split. Qed.

(** ** The order of the upstream calls of list all *)

(** C9, counterexample.  Against an upstream that answers every query,
    the request for Hardware is issued after the outcome for Accessories
    has arrived. *)
Lemma get_all_products_async_not_a_fan_out :
  ~ fan_out_as_specified net_empty initial.
Proof.
  intros H.
  specialize (H _ eq_refl).
  vm_compute in H. discriminate.
Qed.

Lemma each_awaited_one_by_one (self : InventoryService) (net : Network)
      (cats : list ProductCategory) :
  forall history, each_awaited (one_by_one self net history cats) = true.
Proof.
  induction cats as [|c cats IH]; intros history; [reflexivity|].
  cbn. apply IH.
Qed.

(** C9, amended.  [get_all_products_async] queries the categories one
    after another in the order of the enumeration: the events it adds to
    the trace are those of [one_by_one], where the outcome of each
    request has arrived before the next request is issued. *)
Theorem get_all_products_async_one_by_one :
  forall (self : InventoryService) (net : Network) (st : State),
    let evs := one_by_one self net (events st) ProductCategory_members in
    events (snd (get_all_products_async self net st)) = (events st ++ evs)%list /\
    issued evs = map (list_request self) ProductCategory_members /\
    each_awaited evs = true /\
    fan_out_then_join evs = false.
Proof.
  intros self net st evs. subst evs.
  split; [|split; [|split]].
  - unfold get_all_products_async.
    now destruct (get_all_products_loop_eq self ProductCategory_members [] net st)
      as (st' & -> & Ev).
  - apply issued_one_by_one.
  - apply each_awaited_one_by_one.
  - reflexivity.
Qed.

(** ** The JSON round trip of a record *)

Lemma dict_get_category_to_dict (product : ProductDetails) (data : dict) :
  to_dict product = Ok data ->
  exists c, dict_get "category" data = Some (VStr (value c)) /\
            dict_get "unit_price" data = Some (VFloat (float_of_Decimal (unit_price product))) /\
            In "total_price" (keys data).
Proof.
  unfold to_dict, category_value. cbn [bind Exc_Monad].
  destruct (category product); try discriminate.
  destruct (total_price product); [|discriminate].
  cbn. intros H. injection H as <-.
  exists c. cbn. intuition.
Qed.

(** Whatever record [to_json] serializes, [from_json] raises TypeError on
    the text: 'total_price' is no keyword of the constructor. *)
Lemma from_json_to_json_raises (product : ProductDetails) (text : json_text) :
  to_json product = Ok text -> from_json text = Raise TypeError.
Proof.
  unfold to_json, json_dumps. cbn [bind Exc_Monad].
  destruct (to_dict product) as [data|] eqn:E; [|discriminate].
  destruct (serializable (VDict data)); [|discriminate].
  intros H. injection H as <-.
  destruct (dict_get_category_to_dict product data E) as (c & Hc & Hu & Hk).
  unfold from_json, json_loads, from_dict.
  rewrite Hc, Hu, ProductCategory_of_value_value.
  cbn [bind Exc_Monad float_of_Decimal Decimal_of_str].
  unfold ProductDetails_init.
  destruct (forallb _ (keys data)) eqn:F; [|reflexivity].
  rewrite forallb_forall in F. specialize (F _ Hk). discriminate.
Qed.

(** C4, at the record with quantity 3 and unit price 19.99.  Its total
    price is 59.97 and [to_json] writes it under 'total_price'; but
    [from_json] of that text raises TypeError and yields no record. *)
Theorem round_trip_three_at_19_99 :
  total_price three_at_19_99 = Ok (mkDecimal 5997 (-2)) /\
  exists data,
    to_json three_at_19_99 = Ok (JSONText (VDict data)) /\
    dict_get "total_price" data = Some (VFloat (PyFloat (mkDecimal 5997 (-2)))) /\
    from_json (JSONText (VDict data)) = Raise TypeError.
Proof.
  split; [reflexivity|].
  eexists. split; [reflexivity|]. split; reflexivity.
Qed.

(** * Further properties of the code *)

(** ** models.py *)

(** X1. [ProductCategory(s)] and [.value] are inverse to each other: the
    lookup returns member [c] exactly when [s] is the value of [c], so two
    members never share a value and no other spelling is accepted. *)
Theorem ProductCategory_lookup_inverts_value :
  forall (s : string) (c : ProductCategory),
    ProductCategory_of_value s = Some c <-> value c = s.
Proof.
  intros s c. split.
  - apply ProductCategory_of_value_Some.
  - intros <-. apply ProductCategory_of_value_value.
Qed.







Lemma ProductDetails_init_keys (c : pyval) (u : Decimal) (d : dict) (p : ProductDetails) :
  ProductDetails_init c u d = Ok p -> forall k, In k (keys d) -> In k field_names.
Proof.
  unfold ProductDetails_init.
  destruct (forallb _ (keys d)) eqn:F; [|discriminate].
  intros _ k Hk. rewrite forallb_forall in F. specialize (F k Hk).
  apply existsb_exists in F. destruct F as (f & Hf & E).
  apply String.eqb_eq in E. now subst.
Qed.

(** X4. [from_dict] returns a record only for a dict all of whose keys
    name fields of the dataclass: with one key more, 'total_price' for
    one, it raises and no record is built. *)
Theorem from_dict_refuses_unknown_keys :
  forall (d : dict) (k : string),
    In k (keys d) ->
    ~ In k field_names ->
    exists e, from_dict (VDict d) = Raise e.
Proof.
  intros d k Hk Hf.
  destruct (from_dict (VDict d)) as [p|e] eqn:E; [|now exists e].
  exfalso. apply Hf.
  unfold from_dict in E. cbn [bind Exc_Monad] in E.
  repeat match type of E with
         | match ?x with Ok _ => _ | Raise _ => _ end = _ =>
             destruct x; [|discriminate]
         end.
  exact (ProductDetails_init_keys _ _ d p E k Hk).
Qed.

(** The product as the specification shapes its JSON: with 'total_price'. *)
Lemma from_dict_refuses_unknown_keys_witness :
  exists e,
    from_dict (VDict [("id", VStr "b1"); ("name", VStr "Dune");
                      ("category", VStr "Books"); ("quantity", VInt 3);
                      ("unit_price", VFloat (PyFloat (mkDecimal 1999 (-2))));
                      ("total_price", VFloat (PyFloat (mkDecimal 5997 (-2))))])
    = Raise e.
Proof.
  apply (from_dict_refuses_unknown_keys _ "total_price").
  - cbn. tauto.
  - cbn. intros H. repeat (destruct H as [H|H]; [discriminate|]). exact H.
Defined.

(** ** inventory_service.py *)

Lemma comprehension_Forall2 {A B : Type} (f : A -> Exc B) (l : list A) (l' : list B) :
  comprehension f l = Ok l' <-> Forall2 (fun x y => f x = Ok y) l l'.
Proof.
  revert l'. induction l as [|x l IH]; intros l'; cbn.
  - split.
    + intros H. injection H as <-. constructor.
    + intros H. inversion H. reflexivity.
  - split.
    + destruct (f x) as [y|] eqn:E; [|discriminate].
      destruct (comprehension f l) as [ys|]; [|discriminate].
      intros H. injection H as <-. constructor; [exact E|]. now apply IH.
    + intros H. inversion H as [|x0 y l0 ys Hx Hl]; subst.
      rewrite Hx. apply IH in Hl. now rewrite Hl.
Qed.

(** X5. List by category is all or nothing.  On a 200 answer whose body
    is a JSON array, the client returns the records of the elements, one
    for one and in the order of the array, when [from_dict] accepts every
    element; and the empty list as soon as it raises on one of them. *)
Theorem list_by_category_all_or_nothing :
  forall (self : InventoryService) (category : ProductCategory)
         (net : Network) (st : State) (items : list pyval),
    net (events st) (list_request self category) = Response 200 (Some (VList items)) ->
    let result := fst (get_products_by_category_async self category net st) in
    (forall products,
       Forall2 (fun j p => from_dict j = Ok p) items products -> result = Ok products) /\
    (forall j e, In j items -> from_dict j = Raise e -> result = Ok []).
Proof.
  intros self category net st items N result. subst result.
  unfold get_products_by_category_async.
  rewrite _get_products_by_category_async_eq. cbv zeta. rewrite N. cbn.
  split.
  - intros products H. apply comprehension_Forall2 in H. now rewrite H.
  - intros j e Hin Hj.
    now destruct (comprehension_raises from_dict items j e Hin Hj) as [e' ->].
Qed.

Lemma list_by_category_all_or_nothing_witness :
  fst (get_products_by_category_async inventory_service BOOKS
         (fun _ _ => Response 200 (Some (VList [dune_json; dune_json]))) initial)
    = Ok [dune; dune] /\
  fst (get_products_by_category_async inventory_service BOOKS
         (fun _ _ => Response 200 (Some (VList [dune_json; VInt 7]))) initial)
    = Ok [].
Proof.
  split.
  - apply (list_by_category_all_or_nothing inventory_service BOOKS
             (fun _ _ => Response 200 (Some (VList [dune_json; dune_json]))) initial
             [dune_json; dune_json] eq_refl).
    repeat constructor.
  - apply (list_by_category_all_or_nothing inventory_service BOOKS
             (fun _ _ => Response 200 (Some (VList [dune_json; VInt 7]))) initial
             [dune_json; VInt 7] eq_refl) with (j := VInt 7) (e := Error TypeError).
    + right; left; reflexivity.
    + reflexivity.
Defined.

(** X6. When the upstream does not answer a list-by-category call with
    200 and a JSON body, the client returns the empty list and writes one
    log record: a warning for another status, an error when the
    connection fails or the body of a 200 is no JSON. *)
Theorem list_by_category_failure_is_empty :
  forall (self : InventoryService) (category : ProductCategory)
         (net : Network) (st : State),
    let res := net (events st) (list_request self category) in
    let result := get_products_by_category_async self category net st in
    (forall j, res <> Response 200 (Some j)) ->
    fst result = Ok [] /\
    exists r,
      logs (snd result) = (logs st ++ [r])%list /\
      (level r = WARNING <->
       exists status body, res = Response status body /\ status <> 200).
Proof.
  intros self category net st res result H. subst result.
  unfold get_products_by_category_async.
  rewrite _get_products_by_category_async_eq. cbv zeta.
  fold res. destruct res as [status body|] eqn:R.
  - destruct (status =? 200) eqn:E.
    + apply Z.eqb_eq in E. subst status.
      destruct body as [j|]; [now destruct (H j)|].
      cbn. split; [reflexivity|]. eexists. split; [reflexivity|]. cbn.
      split; [discriminate|]. intros (s & b & Hr & Hs). injection Hr as <- _. lia.
    + cbn. split; [reflexivity|]. eexists. split; [reflexivity|]. cbn.
      split; [|reflexivity]. intros _. exists status, body.
      apply Z.eqb_neq in E. now split.
  - cbn. split; [reflexivity|]. eexists. split; [reflexivity|]. cbn.
    split; [discriminate|]. intros (s & b & Hr & _). discriminate.
Qed.

Lemma list_by_category_failure_is_empty_witness :
  fst (get_products_by_category_async inventory_service BOOKS (net_status 503) initial)
    = Ok [] /\
  fst (get_products_by_category_async inventory_service BOOKS net_down initial) = Ok [].
Proof.
  split.
  - apply (list_by_category_failure_is_empty inventory_service BOOKS (net_status 503) initial).
    intros j; discriminate.
  - apply (list_by_category_failure_is_empty inventory_service BOOKS net_down initial).
    intros j; discriminate.
Defined.

Lemma issued_after_call (r : Request) (res : HttpResult) (st : State) :
  issued (events (after_call r res st)) = (issued (events st) ++ [r])%list.
Proof.
  unfold after_call, record. cbn [events].
  rewrite <- app_assoc, issued_app. reflexivity.
Qed.

(** X7. No operation of the service raises, whatever the upstream does,
    and each talks to the upstream once: list by category, get by id and
    remove issue exactly one request, the GET or DELETE of their URL; the
    upsert issues its POST, or nothing when the record does not
    serialize. *)
Theorem service_never_raises_and_calls_once :
  forall (self : InventoryService) (category : ProductCategory)
         (product_id : string) (product : ProductDetails)
         (net : Network) (st : State),
    (exists products,
       fst (get_products_by_category_async self category net st) = Ok products) /\
    sent_once st (snd (get_products_by_category_async self category net st))
              (list_request self category) /\
    (exists o, fst (get_product_by_id_async self product_id net st) = Ok o) /\
    sent_once st (snd (get_product_by_id_async self product_id net st))
              (get_request self product_id) /\
    (exists b, fst (remove_product_async self product_id category net st) = Ok b) /\
    sent_once st (snd (remove_product_async self product_id category net st))
              (delete_request self category product_id) /\
    (exists b, fst (add_or_update_product_async self product net st) = Ok b) /\
    (events (snd (add_or_update_product_async self product net st)) = events st \/
     exists c payload,
       category_value product = Ok c /\ to_json product = Ok payload /\
       sent_once st (snd (add_or_update_product_async self product net st))
                 (post_request self c payload)).
Proof.
  intros self category product_id product net st. unfold sent_once.
  unfold get_products_by_category_async.
  rewrite _get_products_by_category_async_eq, get_product_by_id_async_eq,
    remove_product_async_eq, add_or_update_product_async_eq.
  cbv zeta.
  repeat split.
  - destruct (net (events st) (list_request _ _)) as [s b|]; [|now eexists].
    destruct (s =? 200); [|now eexists].
    destruct (response_json b) as [j|]; [|now eexists].
    destruct (iterate j) as [items|]; [|now eexists].
    destruct (comprehension from_dict items); now eexists.
  - destruct (net (events st) (list_request _ _)) as [s b|];
      [|apply issued_after_call].
    destruct (s =? 200); [|apply issued_after_call].
    destruct (response_json b) as [j|]; [|apply issued_after_call].
    destruct (iterate j) as [items|]; [|apply issued_after_call].
    destruct (comprehension from_dict items); apply issued_after_call.
  - destruct (net (events st) (get_request _ _)) as [s b|]; [|now eexists].
    destruct (s =? 200).
    + destruct (response_json b) as [j|]; [|now eexists].
      destruct (from_dict j); now eexists.
    + destruct (s =? 404); now eexists.
  - destruct (net (events st) (get_request _ _)) as [s b|];
      [|apply issued_after_call].
    destruct (s =? 200).
    + destruct (response_json b) as [j|]; [|apply issued_after_call].
      destruct (from_dict j); apply issued_after_call.
    + destruct (s =? 404); apply issued_after_call.
  - destruct (net (events st) (delete_request _ _ _)); now eexists.
  - destruct (net (events st) (delete_request _ _ _)); apply issued_after_call.
  - destruct (category_value product) as [c|]; [|now eexists].
    destruct (to_json product) as [payload|]; [|now eexists].
    destruct (net (events st) _); now eexists.
  - destruct (category_value product) as [c|]; [|now left].
    destruct (to_json product) as [payload|]; [|now left].
    right. exists c, payload. split; [reflexivity|]. split; [reflexivity|].
    destruct (net (events st) _); apply issued_after_call.
Qed.

(** X8. [get_product_count_async] returns 0 whatever the upstream holds,
    after one list-by-category request per member of the enumeration. *)
Theorem get_product_count_async_is_zero :
  forall (self : InventoryService) (net : Network) (st : State),
    fst (get_product_count_async self net st) = Ok 0 /\
    issued (events (snd (get_product_count_async self net st)))
      = (issued (events st) ++ map (list_request self) ProductCategory_members)%list.
Proof.
  intros self net st.
  unfold get_product_count_async. cbn [bind M_Monad].
  pose proof (get_all_products_async_empty self net st) as E.
  pose proof (get_all_products_async_one_call_per_member self net st) as I.
  destruct (get_all_products_async self net st) as [[s|e] st']; cbn in *.
  - injection E as ->. split; [reflexivity|exact I].
  - discriminate.
Qed.

(** X9. [health_check_async] reports 'healthy' with product_count 0 on
    every call: also when every upstream call fails, since the count
    never raises. *)
Theorem health_check_async_always_healthy :
  forall (self : InventoryService) (net : Network) (st : State),
    fst (health_check_async self net st) = Ok (Healthy 0 (orleans_base_url self)).
Proof.
  intros self net st.
  unfold health_check_async, try_except. cbn [bind M_Monad].
  pose proof (get_product_count_async_is_zero self net st) as [E _].
  destruct (get_product_count_async self net st) as [[n|e] st']; cbn in *.
  - now injection E as ->.
  - discriminate.
Qed.

(** X10. The service returns a product for an id exactly when the
    upstream answers 200 with a JSON body that [from_dict] accepts, and
    the product is the record [from_dict] builds. *)
Theorem get_product_by_id_async_found :
  forall (self : InventoryService) (product_id : string)
         (net : Network) (st : State) (product : ProductDetails),
    fst (get_product_by_id_async self product_id net st) = Ok (Some product) <->
    exists product_data,
      net (events st) (get_request self product_id) = Response 200 (Some product_data) /\
      from_dict product_data = Ok product.
Proof.
  intros self product_id net st product.
  rewrite get_product_by_id_async_eq. cbv zeta.
  split.
  - destruct (net (events st) _) as [s b|]; [|discriminate].
    destruct (s =? 200) eqn:E.
    + apply Z.eqb_eq in E. subst s.
      destruct b as [j|]; [|discriminate]. cbn.
      destruct (from_dict j) as [p|] eqn:F; [|discriminate].
      cbn. intros H. injection H as <-. now exists j.
    + destruct (s =? 404); discriminate.
  - intros (j & -> & F). cbn. now rewrite F.
Qed.

(** X11. A record that does not serialize is not sent: the upsert
    returns false and issues no request, and for the record the POST
    route built from a payload the route answers 500.  So it is when the
    total price does not fit the decimal context. *)
Theorem upsert_unserializable_is_not_sent :
  forall (category : ProductCategory) (product_request : ProductRequest)
         (product : ProductDetails) (e : exn) (net : Network) (st : State),
    product_of_request category product_request = Ok product ->
    to_json product = Raise e ->
    let result := add_or_update_product_async inventory_service product net st in
    let answer := add_or_update_product (value category) product_request net st in
    fst result = Ok false /\
    events (snd result) = events st /\
    fst answer = Raise (HTTPException 500 "Failed to add or update product" None) /\
    events (snd answer) = events st.
Proof.
  intros category product_request product e net st Hp He result answer.
  subst result answer.
  rewrite (add_or_update_product_eq category product_request product net st Hp).
  rewrite add_or_update_product_async_eq. cbv zeta.
  rewrite He.
  destruct (category_value product); cbn; repeat split.
Qed.

(** An order of 10^26 pieces at 1.0 each. *)
Lemma upsert_unserializable_is_not_sent_witness :
  let big := {| req_id := None; req_name := None; req_description := None;
                req_category := "Books"; req_quantity := 10 ^ 26;
                req_unit_price := PyFloat (mkDecimal 10 (-1));
                req_details_url := None; req_image_url := None |} in
  fst (add_or_update_product "Books" big net_empty initial)
    = Raise (HTTPException 500 "Failed to add or update product" None) /\
  events (snd (add_or_update_product "Books" big net_empty initial)) = [].
Proof.
  intros big.
  pose proof (upsert_unserializable_is_not_sent BOOKS big _
                (Error InvalidOperation) net_empty initial eq_refl eq_refl) as H.
  cbv zeta in H. destruct H as (_ & _ & H1 & H2).
  split; [exact H1|exact H2].
Defined.

(** ** api.py *)

Lemma category_value_raises_error (product : ProductDetails) (e : exn) :
  category_value product = Raise e -> e = Error AttributeError.
Proof.
  unfold category_value. destruct (category product); intros H;
    try discriminate; now injection H as <-.
Qed.

Lemma total_price_raises_error (product : ProductDetails) (e : exn) :
  total_price product = Raise e -> e = Error TypeError \/ e = Error InvalidOperation.
Proof.
  unfold total_price, Decimal_round2.
  destruct (quantity product); intros H;
    try (injection H as <-; now left);
    destruct (Z.abs _ <? _); try discriminate; injection H as <-; now right.
Qed.

Lemma optional_str_raises_error (v : pyval) (e : exn) :
  optional_str v = Raise e -> e = Error ValidationError.
Proof.
  destruct v; intros H; try discriminate; now injection H as <-.
Qed.

Lemma int_field_raises_error (v : pyval) (e : exn) :
  int_field v = Raise e -> e = Error ValidationError.
Proof.
  destruct v; intros H; try discriminate; now injection H as <-.
Qed.

Lemma product_to_response_raises_error (product : ProductDetails) (e : exn) :
  product_to_response product = Raise e -> exists e', e = Error e'.
Proof.
  unfold product_to_response. cbn [bind Exc_Monad]. intros H.
  destruct (category_value product) eqn:E1;
    [|injection H as <-; apply category_value_raises_error in E1; eauto].
  destruct (total_price product) eqn:E2;
    [|injection H as <-; apply total_price_raises_error in E2;
      destruct E2; eauto].
  repeat match type of H with
         | match ?x with Ok _ => _ | Raise _ => _ end = _ =>
             let E := fresh "E" in
             destruct x eqn:E;
             [|injection H as <-;
               first [apply optional_str_raises_error in E
                     |apply int_field_raises_error in E]; eauto]
         end.
  discriminate.
Qed.

Lemma comprehension_raises_error {A B : Type} (f : A -> Exc B) (l : list A) (e : exn) :
  (forall x e, f x = Raise e -> exists e', e = Error e') ->
  comprehension f l = Raise e -> exists e', e = Error e'.
Proof.
  intros Hf. induction l as [|x l IH]; cbn; [discriminate|].
  destruct (f x) as [y|e0] eqn:E.
  - destruct (comprehension f l) as [ys|e1]; [discriminate|].
    intros H. injection H as <-. now apply IH.
  - intros H. injection H as <-. exact (Hf x e0 E).
Qed.

Lemma get_products_by_category_eq (c : ProductCategory) (net : Network) (st : State) :
  let failed e st' :=
    (Raise (HTTPException 500 "Failed to retrieve products for category: " (Some e)),
     after_error ("Error getting products for category " ++ value c) (Error e) st') in
  get_products_by_category (value c) net st =
  match _get_products_by_category_async inventory_service c net st with
  | (Ok products, st') =>
      match comprehension product_to_response products with
      | Ok l => (Ok (Products l), st')
      | Raise (Error e) => failed e st'
      | Raise e => (Raise e, st')
      end
  | (Raise (Error e), st') => failed e st'
  | (Raise e, st') => (Raise e, st')
  end.
Proof.
  unfold get_products_by_category, handle_errors, try_except,
    get_products_by_category_async.
  cbn [bind M_Monad].
  rewrite validate_category_valid.
  destruct (_get_products_by_category_async inventory_service c net st)
    as [[products|[e|s d x]] st']; cbn; try reflexivity.
  unfold lift.
  destruct (comprehension product_to_response products) as [l|[e|s d x]]; reflexivity.
Qed.

Lemma get_product_by_id_eq (product_id : string) (net : Network) (st : State) :
  let failed e st' :=
    (Raise (HTTPException 500 "Failed to retrieve product: " (Some e)),
     after_error ("Error getting product " ++ product_id) (Error e) st') in
  get_product_by_id product_id net st =
  match get_product_by_id_async inventory_service product_id net st with
  | (Ok None, st') => (Raise (not_found product_id), st')
  | (Ok (Some product), st') =>
      match product_to_response product with
      | Ok r => (Ok (Product r), st')
      | Raise (Error e) => failed e st'
      | Raise e => (Raise e, st')
      end
  | (Raise (Error e), st') => failed e st'
  | (Raise e, st') => (Raise e, st')
  end.
Proof.
  unfold get_product_by_id, handle_errors, try_except.
  cbn [bind M_Monad].
  destruct (get_product_by_id_async inventory_service product_id net st)
    as [[[product|]|[e|s d x]] st']; try reflexivity.
  unfold lift. generalize (product_to_response product). intros response.
  destruct response as [r|[e|s d x]]; reflexivity.
Qed.

Lemma remove_product_eq (c : ProductCategory) (product_id : string)
      (net : Network) (st : State) :
  remove_product (value c) product_id net st =
  match remove_product_async inventory_service product_id c net st with
  | (Ok true, st') =>
      (Ok (Message ("Product " ++ product_id ++ " removed successfully")), st')
  | (Ok false, st') =>
      (Raise (HTTPException 404
                ("Product " ++ product_id ++ " not found or could not be removed") None),
       st')
  | (Raise (Error e), st') =>
      (Raise (HTTPException 500 "Failed to remove product: " (Some e)),
       after_error ("Error removing product " ++ product_id) (Error e) st')
  | (Raise e, st') => (Raise e, st')
  end.
Proof.
  unfold remove_product, handle_errors, try_except.
  cbn [bind M_Monad].
  rewrite validate_category_valid.
  destruct (remove_product_async inventory_service product_id c net st)
    as [[[|]|[e|s d x]] st']; reflexivity.
Qed.

(** X12. With a valid category, a failure of the upstream does not show
    in GET /categories/{category}/products: when the upstream does not
    answer 200 with a JSON body, the route returns the empty list, status
    200. *)
Theorem get_products_by_category_hides_upstream_failure :
  forall (category : ProductCategory) (net : Network) (st : State),
    (forall j, net (events st) (list_request inventory_service category)
               <> Response 200 (Some j)) ->
    fst (get_products_by_category (value category) net st) = Ok (Products []) /\
    http_status (fst (get_products_by_category (value category) net st)) = 200.
Proof.
  intros category net st H.
  rewrite get_products_by_category_eq. cbv zeta.
  pose proof (list_by_category_failure_is_empty inventory_service category net st H)
    as [E _].
  unfold get_products_by_category_async in E.
  destruct (_get_products_by_category_async inventory_service category net st)
    as [[products|e] st']; cbn in E; [|discriminate].
  injection E as ->. cbn. split; reflexivity.
Qed.

Lemma get_products_by_category_hides_upstream_failure_witness :
  fst (get_products_by_category "Books" net_down initial) = Ok (Products []) /\
  http_status (fst (get_products_by_category "Books" (net_status 503) initial)) = 200.
Proof.
  split.
  - apply (get_products_by_category_hides_upstream_failure BOOKS net_down initial).
    intros j; discriminate.
  - apply (get_products_by_category_hides_upstream_failure BOOKS (net_status 503) initial).
    intros j; discriminate.
Defined.

(** X13. The status of GET /products/{product_id}.  It is 200 exactly
    when the upstream answers 200 with a JSON body that [from_dict]
    accepts and from whose record the response builds; 500 exactly when
    [from_dict] accepts the body and building the response raises; and
    404 in every other case. *)
Theorem get_product_by_id_status :
  forall (product_id : string) (net : Network) (st : State),
    let res := net (events st) (get_request inventory_service product_id) in
    let status := http_status (fst (get_product_by_id product_id net st)) in
    (status = 200 <->
     exists j p r,
       res = Response 200 (Some j) /\ from_dict j = Ok p /\ product_to_response p = Ok r) /\
    (status = 500 <->
     exists j p e,
       res = Response 200 (Some j) /\ from_dict j = Ok p /\
       product_to_response p = Raise e) /\
    (status = 200 \/ status = 404 \/ status = 500).
Proof.
  intros product_id net st res status. subst status.
  rewrite get_product_by_id_eq. cbv zeta.
  pose proof (get_product_by_id_async_found inventory_service product_id net st) as F.
  subst res.
  pose proof (service_never_raises_and_calls_once inventory_service BOOKS product_id
                dune net st) as (_ & _ & [o Ho] & _).
  destruct (get_product_by_id_async inventory_service product_id net st)
    as [[[p|]|e] st']; cbn in Ho; try discriminate.
  - destruct (proj1 (F p) eq_refl) as (j & Hj & Hp).
    destruct (product_to_response p) as [r|e] eqn:R.
    + cbn [http_status fst]. split; [|split; [|now left]].
      * split; [intros _; now exists j, p, r|reflexivity].
      * split; [discriminate|].
        intros (j' & p' & e' & Hj' & Hp' & R'). congruence.
    + destruct (product_to_response_raises_error p e R) as [e' ->].
      cbn [http_status fst]. split; [|split; [|now right; right]].
      * split; [discriminate|].
        intros (j' & p' & r' & Hj' & Hp' & R'). congruence.
      * split; [intros _; now exists j, p, (Error e')|reflexivity].
  - cbn [http_status fst]. split; [|split; [|now right; left]].
    + split; [discriminate|].
      intros (j & p & r & Hj & Hp & _).
      assert (X : Ok (A := option ProductDetails) None = Ok (Some p))
        by (apply F; now exists j).
      discriminate.
    + split; [discriminate|].
      intros (j & p & e & Hj & Hp & _).
      assert (X : Ok (A := option ProductDetails) None = Ok (Some p))
        by (apply F; now exists j).
      discriminate.
Qed.

Lemma answers_incl (r : Exc Body) (codes codes' : list Z) :
  answers r codes -> incl codes codes' -> answers r codes'.
Proof.
  intros H I. destruct r as [b|[e|s d c]]; cbn in *; auto.
Qed.

Lemma answers_status (r : Exc Body) (codes : list Z) :
  answers r codes -> In (http_status r) codes.
Proof. destruct r as [b|[e|s d c]]; cbn; tauto. Qed.

Lemma get_products_by_category_valid (c : ProductCategory) (net : Network) (st : State) :
  answers (fst (get_products_by_category (value c) net st)) [200; 500].
Proof.
  rewrite get_products_by_category_eq. cbv zeta.
  pose proof (service_never_raises_and_calls_once inventory_service c "" dune net st)
    as ([products H] & _).
  unfold get_products_by_category_async in H.
  destruct (_get_products_by_category_async inventory_service c net st)
    as [[l|e] st']; cbn in H; [|discriminate].
  destruct (comprehension product_to_response l) as [rs|e] eqn:E; [cbn; tauto|].
  destruct (comprehension_raises_error product_to_response l e
              product_to_response_raises_error E) as [e' ->].
  cbn. tauto.
Qed.

Lemma add_or_update_product_valid (c : ProductCategory) (product_request : ProductRequest)
      (net : Network) (st : State) :
  answers (fst (add_or_update_product (value c) product_request net st)) [200; 500].
Proof.
  rewrite (add_or_update_product_eq c product_request _ net st
             (product_of_request_eq c product_request)).
  match goal with
  | |- context [add_or_update_product_async inventory_service ?p net st] =>
      pose proof (service_never_raises_and_calls_once inventory_service c "" p net st)
        as (_ & _ & _ & _ & _ & _ & [b H] & _);
      destruct (add_or_update_product_async inventory_service p net st)
        as [[[|]|e] st']; cbn [fst] in H; try discriminate;
      [destruct (product_to_response p) as [r|e] eqn:E;
       [|destruct (product_to_response_raises_error p e E) as [e' ->]]|]
  end; cbn [fst answers In]; tauto.
Qed.

Lemma remove_product_valid (c : ProductCategory) (product_id : string)
      (net : Network) (st : State) :
  answers (fst (remove_product (value c) product_id net st)) [200; 404].
Proof.
  rewrite remove_product_eq.
  pose proof (service_never_raises_and_calls_once inventory_service c product_id dune net st)
    as (_ & _ & _ & _ & [b H] & _).
  destruct (remove_product_async inventory_service product_id c net st)
    as [[[|]|e] st']; cbn in *; try discriminate; tauto.
Qed.

Lemma category_routes_invalid (category product_id : string)
      (product_request : ProductRequest) (net : Network) (st : State) :
  ProductCategory_of_value category = None ->
  fst (get_products_by_category category net st) = Raise (invalid_category category) /\
  fst (add_or_update_product category product_request net st)
    = Raise (invalid_category category) /\
  fst (remove_product category product_id net st) = Raise (invalid_category category).
Proof.
  intros H.
  unfold get_products_by_category, add_or_update_product, remove_product,
    handle_errors, try_except.
  cbn [bind M_Monad].
  rewrite (validate_category_invalid category net st H).
  repeat split.
Qed.

(** X14. Each route answers with its own status codes only and lets no
    other exception out: 200, 404 or 500 for GET /products/{id}; 200, 400
    or 500 for the list-by-category and the POST route; 200, 400 or 404
    for the DELETE route, which never answers 500. *)
Theorem routes_answer_with_their_statuses :
  forall (category product_id : string) (product_request : ProductRequest)
         (net : Network) (st : State),
    answers (fst (get_product_by_id product_id net st)) [200; 404; 500] /\
    answers (fst (get_products_by_category category net st)) [200; 400; 500] /\
    answers (fst (add_or_update_product category product_request net st)) [200; 400; 500] /\
    answers (fst (remove_product category product_id net st)) [200; 400; 404].
Proof.
  intros category product_id product_request net st.
  split.
  - rewrite get_product_by_id_eq. cbv zeta.
    pose proof (service_never_raises_and_calls_once inventory_service BOOKS product_id
                  dune net st) as (_ & _ & [o H] & _).
    destruct (get_product_by_id_async inventory_service product_id net st)
      as [[[p|]|e] st']; cbn in H; try discriminate; [|cbn; tauto].
    destruct (product_to_response p) as [r|e] eqn:E; [cbn; tauto|].
    destruct (product_to_response_raises_error p e E) as [e' ->]. cbn. tauto.
  - destruct (ProductCategory_of_value category) as [c|] eqn:V.
    + apply ProductCategory_of_value_Some in V. subst category.
      repeat split.
      * apply (answers_incl _ [200; 500]);
          [apply get_products_by_category_valid|intros x [<-|[<-|[]]]; cbn; tauto].
      * apply (answers_incl _ [200; 500]);
          [apply add_or_update_product_valid|intros x [<-|[<-|[]]]; cbn; tauto].
      * apply (answers_incl _ [200; 404]);
          [apply remove_product_valid|intros x [<-|[<-|[]]]; cbn; tauto].
    + destruct (category_routes_invalid category product_id product_request net st V)
        as (-> & -> & ->).
      cbn. tauto.
Qed.

(** X15. GET /categories lists the strings the category routes accept:
    a string is in the list exactly when [ProductCategory] has a member
    of that value, and each of the three category routes answers 400
    exactly for the strings that are not in the list. *)
Theorem category_routes_accept_the_listed_categories :
  forall (category product_id : string) (product_request : ProductRequest)
         (net : Network) (st : State),
    (In category get_categories <-> exists c, ProductCategory_of_value category = Some c) /\
    (http_status (fst (get_products_by_category category net st)) = 400
     <-> ~ In category get_categories) /\
    (http_status (fst (add_or_update_product category product_request net st)) = 400
     <-> ~ In category get_categories) /\
    (http_status (fst (remove_product category product_id net st)) = 400
     <-> ~ In category get_categories).
Proof.
  intros category product_id product_request net st.
  assert (L : In category get_categories <->
              exists c, ProductCategory_of_value category = Some c).
  { unfold get_categories. rewrite in_map_iff. split.
    - intros (c & <- & _). exists c. apply ProductCategory_of_value_value.
    - intros (c & H). exists c. split; [now apply ProductCategory_of_value_Some|].
      destruct c; cbn; tauto. }
  split; [exact L|].
  destruct (ProductCategory_of_value category) as [c|] eqn:V.
  - assert (Hin : In category get_categories) by (apply L; now exists c).
    apply ProductCategory_of_value_Some in V. subst category.
    pose proof (answers_status _ _ (get_products_by_category_valid c net st)) as H1.
    pose proof (answers_status _ _ (add_or_update_product_valid c product_request net st))
      as H2.
    pose proof (answers_status _ _ (remove_product_valid c product_id net st)) as H3.
    cbn in H1, H2, H3.
    repeat split; intros H; try contradiction; lia.
  - assert (Hnot : ~ In category get_categories).
    { intros H. apply L in H. destruct H as [c H]. discriminate. }
    destruct (category_routes_invalid category product_id product_request net st V)
      as (-> & -> & ->).
    repeat split; auto.
Qed.

(** X16. The POST route takes the category from the path and never
    reads the 'category' field of the payload: the answer and the state
    are the same whatever that field holds, and a returned record carries
    the category of the path. *)
Theorem add_or_update_product_ignores_payload_category :
  forall (category x : string) (product_request : ProductRequest)
         (net : Network) (st : State),
    add_or_update_product category (with_category product_request x) net st
      = add_or_update_product category product_request net st /\
    forall r, fst (add_or_update_product category product_request net st) = Ok (Product r) ->
              resp_category r = category.
Proof.
  intros category x product_request net st. split; [reflexivity|].
  intros r H.
  destruct (ProductCategory_of_value category) as [c|] eqn:V.
  - apply ProductCategory_of_value_Some in V. subst category.
    rewrite (add_or_update_product_eq c product_request _ net st
               (product_of_request_eq c product_request)) in H.
    match type of H with
    | context [add_or_update_product_async inventory_service ?p net st] =>
        destruct (add_or_update_product_async inventory_service p net st)
          as [[[|]|[e|s d y]] st']; try discriminate;
        destruct (total_price p) as [t|e] eqn:T;
        [rewrite (product_to_response_of_request c product_request p t
                    (product_of_request_eq c product_request) T) in H
        |unfold product_to_response in H; cbn [bind Exc_Monad category_value category] in H;
         rewrite T in H; destruct e; discriminate]
    end.
    cbn in H. injection H as <-. reflexivity.
  - destruct (category_routes_invalid category "" product_request net st V)
      as (_ & E & _).
    rewrite E in H. discriminate.
Qed.

Lemma add_or_update_product_ignores_payload_category_witness :
  add_or_update_product "Books" (with_category sample_request "Music")
    (net_status 201) initial
    = add_or_update_product "Books" sample_request (net_status 201) initial /\
  exists r,
    fst (add_or_update_product "Books" (with_category sample_request "Music")
           (net_status 201) initial) = Ok (Product r) /\
    resp_category r = "Books".
Proof.
  destruct (add_or_update_product_ignores_payload_category "Books" "Music"
              sample_request (net_status 201) initial) as [E _].
  destruct (add_or_update_product_ignores_payload_category "Books" "Music"
              (with_category sample_request "Music") (net_status 201) initial)
    as [_ C].
  split; [exact E|].
  eexists. split; [reflexivity|].
  apply C. reflexivity.
Defined.

(** X17. The POST route returns a record only when the upstream has
    answered the POST with 200 or 201, and the record it returns is the
    payload: id, name, description, quantity, unit price and the two URLs
    as they were sent, with the total price the gateway computed. *)
Theorem add_or_update_product_echoes_the_payload :
  forall (category : string) (product_request : ProductRequest)
         (net : Network) (st : State) (r : ProductResponse),
    fst (add_or_update_product category product_request net st) = Ok (Product r) ->
    exists c product payload t status body,
      value c = category /\
      product_of_request c product_request = Ok product /\
      to_json product = Ok payload /\
      net (events st) (post_request inventory_service category payload)
        = Response status body /\
      (status = 200 \/ status = 201) /\
      total_price product = Ok t /\
      r = {| resp_id := req_id product_request;
             resp_name := req_name product_request;
             resp_description := req_description product_request;
             resp_category := category;
             resp_quantity := req_quantity product_request;
             resp_unit_price := req_unit_price product_request;
             resp_total_price := float_of_Decimal t;
             resp_details_url := req_details_url product_request;
             resp_image_url := req_image_url product_request |}.
Proof.
  intros category product_request net st r H.
  destruct (ProductCategory_of_value category) as [c|] eqn:V.
  - apply ProductCategory_of_value_Some in V. subst category.
    pose proof (product_of_request_eq c product_request) as P.
    rewrite (add_or_update_product_eq c product_request _ net st P) in H.
    rewrite add_or_update_product_async_eq in H. cbv zeta in H.
    match type of P with
    | _ = Ok ?p => set (product := p) in *
    end.
    assert (C : category_value product = Ok (value c)) by reflexivity.
    rewrite C in H.
    destruct (to_json product) as [payload|e] eqn:J; [|discriminate].
    destruct (to_json_total_price product payload J) as [t T].
    destruct (net (events st) (post_request inventory_service (value c) payload))
      as [status body|] eqn:N; [|discriminate].
    destruct ((status =? 200) || (status =? 201)) eqn:S; [|discriminate].
    rewrite (product_to_response_of_request c product_request product t P T) in H.
    cbn [fst] in H. injection H as <-.
    exists c, product, payload, t, status, body.
    repeat split; try assumption.
    apply orb_true_iff in S. destruct S as [S|S]; apply Z.eqb_eq in S; auto.
  - destruct (category_routes_invalid category "" product_request net st V)
      as (_ & E & _).
    rewrite E in H. discriminate.
Qed.

Lemma add_or_update_product_echoes_the_payload_witness :
  exists t,
    total_price three_at_19_99 = Ok t /\
    fst (add_or_update_product "Books" sample_request (net_status 201) initial)
      = Ok (Product {| resp_id := Some "abc123"; resp_name := Some "Dune";
                       resp_description := None; resp_category := "Books";
                       resp_quantity := 3;
                       resp_unit_price := PyFloat (mkDecimal 1999 (-2));
                       resp_total_price := float_of_Decimal t;
                       resp_details_url := None; resp_image_url := None |}).
Proof.
  destruct (add_or_update_product_echoes_the_payload "Books" sample_request
              (net_status 201) initial _ eq_refl)
    as (c & product & payload & t & status & body & Hc & Hp & _ & _ & _ & Ht & _).
  destruct c; try discriminate Hc.
  injection Hp as <-.
  exists t. split; [exact Ht|].
  vm_compute in Ht. injection Ht as <-. reflexivity.
Defined.

(** X18. When the connection fails on the DELETE, the route answers 404,
    as for a product that is not there, and the client logs one error. *)
Theorem remove_product_connection_failure_is_404 :
  forall (category : ProductCategory) (product_id : string)
         (net : Network) (st : State),
    net (events st) (delete_request inventory_service category product_id)
      = ConnectionFailed ->
    let answer := remove_product (value category) product_id net st in
    fst answer
      = Raise (HTTPException 404
                 ("Product " ++ product_id ++ " not found or could not be removed") None) /\
    logs (snd answer)
      = (logs st ++ [mkLogRecord ERROR ("Error removing product " ++ product_id)
                       (Some (Error ClientError))])%list.
Proof.
  intros category product_id net st N answer. subst answer.
  rewrite remove_product_eq, remove_product_async_eq. cbv zeta.
  rewrite N. split; reflexivity.
Qed.

Lemma remove_product_connection_failure_is_404_witness :
  http_status (fst (remove_product "Books" "abc123" net_down initial)) = 404.
Proof.
  destruct (remove_product_connection_failure_is_404 BOOKS "abc123" net_down initial
              eq_refl) as [E _].
  cbv zeta in E. change (value BOOKS) with "Books" in E.
  rewrite E. reflexivity.
Defined.

Lemma comprehension_from_dict_strings {A : Type} (f : A -> string) (l : list A) :
  comprehension from_dict (map (fun x => VStr (f x)) l)
  = match l with
    | [] => Ok []
    | _ :: _ => Raise TypeError
    end.
Proof. now destruct l. Qed.

(** X19. A 200 answer to a list-by-category call whose JSON body is not
    an array gives the empty list: an object, a string, a number, true,
    false and null alike. *)
Theorem list_by_category_needs_an_array :
  forall (self : InventoryService) (category : ProductCategory)
         (net : Network) (st : State) (body : pyval),
    net (events st) (list_request self category) = Response 200 (Some body) ->
    (forall items, body <> VList items) ->
    fst (get_products_by_category_async self category net st) = Ok [].
Proof.
  intros self category net st body N H.
  unfold get_products_by_category_async.
  rewrite _get_products_by_category_async_eq. cbv zeta. rewrite N.
  cbn [Z.eqb Pos.eqb response_json].
  destruct body as [| b | z | x | s | l | d | c]; try reflexivity.
  - cbn [iterate].
    rewrite (comprehension_from_dict_strings (fun c => String c EmptyString)).
    now destruct (list_ascii_of_string s).
  - now destruct (H l).
  - cbn [iterate]. unfold keys. rewrite map_map.
    rewrite (comprehension_from_dict_strings (fun x : string * pyval => fst x)).
    now destruct d.
Qed.

Lemma list_by_category_needs_an_array_witness :
  fst (get_products_by_category_async inventory_service BOOKS
         (fun _ _ => Response 200 (Some dune_json)) initial) = Ok [].
Proof.
  apply (list_by_category_needs_an_array inventory_service BOOKS
           (fun _ _ => Response 200 (Some dune_json)) initial dune_json eq_refl).
  intros items; discriminate.
Defined.

(** X20. One record spoils the list of its category: when the client
    returns records and building the response raises on one of them, GET
    /categories/{category}/products answers 500 and returns none. *)
Theorem get_products_by_category_one_bad_record :
  forall (category : ProductCategory) (net : Network) (st : State)
         (products : list ProductDetails) (p : ProductDetails) (e : exn),
    fst (get_products_by_category_async inventory_service category net st) = Ok products ->
    In p products ->
    product_to_response p = Raise e ->
    exists cause,
      fst (get_products_by_category (value category) net st)
        = Raise (HTTPException 500 "Failed to retrieve products for category: "
                   (Some cause)).
Proof.
  intros category net st products p e S Hin R.
  rewrite get_products_by_category_eq. cbv zeta.
  unfold get_products_by_category_async in S.
  destruct (_get_products_by_category_async inventory_service category net st)
    as [[l|x] st']; cbn [fst] in S; [|discriminate].
  injection S as ->.
  destruct (comprehension_raises product_to_response products p e Hin R) as [e1 E].
  destruct (comprehension_raises_error product_to_response products e1
              product_to_response_raises_error E) as [cause ->].
  rewrite E. now exists cause.
Qed.

Lemma get_products_by_category_one_bad_record_witness :
  http_status
    (fst (get_products_by_category "Books"
            (fun _ _ => Response 200 (Some (VList [dune_json; null_quantity_json])))
            initial)) = 500.
Proof.
  destruct (get_products_by_category_one_bad_record BOOKS
              (fun _ _ => Response 200 (Some (VList [dune_json; null_quantity_json])))
              initial _ _ (Error TypeError) eq_refl
              (or_intror (or_introl eq_refl)) eq_refl) as [cause E].
  change (value BOOKS) with "Books" in E. rewrite E. reflexivity.
Defined.

(** ** telemetry.py *)

Lemma lower_ascii_letter (c l u : ascii) :
  In (l, u) [("t", "T"); ("r", "R"); ("u", "U"); ("e", "E")]%char ->
  lower_ascii c = l -> c = l \/ c = u.
Proof.
  intros H.
  destruct H as [H|[H|[H|[H|[]]]]]; injection H as <- <-;
    destruct c as [[] [] [] [] [] [] [] []]; vm_compute; intros E;
    try discriminate; auto.
Qed.

Lemma lower_spells_true (v : string) : lower v = "true" <-> spells_true v.
Proof.
  split.
  - destruct v as [|a [|b [|c [|d [|x v]]]]]; cbn; try discriminate.
    intros H. injection H as Ha Hb Hc Hd.
    exists a, b, c, d. split; [reflexivity|].
    repeat split;
      match goal with
      | |- ?x = ?l \/ ?x = ?u => apply (lower_ascii_letter x l u); [cbn; tauto|assumption]
      end.
  - intros (a & b & c & d & -> & Ha & Hb & Hc & Hd).
    destruct Ha as [-> | ->], Hb as [-> | ->], Hc as [-> | ->], Hd as [-> | ->];
      reflexivity.
Qed.

(** X21. [get_telemetry_config] raises whenever [os.uname] is not
    available, HOSTNAME set or not.  Otherwise the instance id is
    HOSTNAME when it is set and the node name when not, and debug is on
    exactly when OTEL_DEBUG is set and spells 'true' in some mix of upper
    and lower case. *)
Theorem get_telemetry_config_hostname_and_debug :
  forall (environ : Environ) (nodename : Exc string),
    (forall e, nodename = Raise e -> get_telemetry_config environ nodename = Raise e) /\
    (forall n, nodename = Ok n ->
       exists config,
         get_telemetry_config environ nodename = Ok config /\
         service_instance_id config
           = match environ "HOSTNAME" with Some h => h | None => n end /\
         (enable_debug config = true <->
          exists v, environ "OTEL_DEBUG" = Some v /\ spells_true v)).
Proof.
  intros environ nodename. split.
  - now intros e ->.
  - intros n ->. eexists. split; [reflexivity|]. cbn [service_instance_id enable_debug].
    split; [reflexivity|].
    rewrite String.eqb_eq, lower_spells_true. unfold getenv.
    destruct (environ "OTEL_DEBUG") as [v|].
    + split; [intros H; now exists v|].
      intros (v' & E & H). now injection E as ->.
    + split; [|intros (v & E & _); discriminate].
      intros (a & b & c & d & E & _). discriminate.
Qed.

Lemma get_telemetry_config_hostname_and_debug_witness :
  let environ k := if String.eqb k "OTEL_DEBUG" then Some "True"
                   else if String.eqb k "HOSTNAME" then Some "web-1" else None in
  get_telemetry_config environ (Raise AttributeError) = Raise AttributeError /\
  exists config,
    get_telemetry_config environ (Ok "node") = Ok config /\
    service_instance_id config = "web-1".
Proof.
  intros environ.
  destruct (get_telemetry_config_hostname_and_debug environ (Raise AttributeError))
    as [R _].
  destruct (get_telemetry_config_hostname_and_debug environ (Ok "node")) as [_ O].
  split; [exact (R _ eq_refl)|].
  destruct (O "node" eq_refl) as (config & E & I & _).
  exists config. split; [exact E|exact I].
Defined.

(** X22. [create_custom_metrics] returns all four instruments or none:
    the dict has the keys 'operations', 'product_count',
    'request_duration' and 'orleans_calls', each with the instrument the
    meter created for it, or it is empty, which it is as soon as one
    creation raises. *)
Theorem create_custom_metrics_all_or_none :
  forall (meter : Meter),
    let operations :=
      create_counter meter "inventory_operations_total"
        "Total number of inventory operations" "1" in
    let product_count :=
      create_up_down_counter meter "inventory_products_total"
        "Current number of products in inventory" "1" in
    let request_duration :=
      create_histogram meter "inventory_request_duration_seconds"
        "Duration of inventory service requests" "s" in
    let orleans_calls :=
      create_counter meter "orleans_integration_calls_total"
        "Total calls to Orleans service" "1" in
    (forall a b c d,
       operations = Ok a -> product_count = Ok b ->
       request_duration = Ok c -> orleans_calls = Ok d ->
       create_custom_metrics meter
         = [("operations", a); ("product_count", b);
            ("request_duration", c); ("orleans_calls", d)]) /\
    ((exists e, operations = Raise e \/ product_count = Raise e \/
                request_duration = Raise e \/ orleans_calls = Raise e) ->
     create_custom_metrics meter = []).
Proof.
  intros meter operations product_count request_duration orleans_calls.
  subst operations product_count request_duration orleans_calls.
  unfold create_custom_metrics. cbn [bind Exc_Monad ret].
  split.
  - intros a b c d -> -> -> ->. reflexivity.
  - intros (e & H).
    destruct (create_counter meter "inventory_operations_total" _ _) as [a|];
      [|reflexivity].
    destruct (create_up_down_counter meter _ _ _) as [b|]; [|reflexivity].
    destruct (create_histogram meter _ _ _) as [c|]; [|reflexivity].
    destruct (create_counter meter "orleans_integration_calls_total" _ _) as [d|];
      [|reflexivity].
    destruct H as [H|[H|[H|H]]]; discriminate.
Qed.

Lemma create_custom_metrics_all_or_none_witness :
  map fst (create_custom_metrics working_meter)
    = ["operations"; "product_count"; "request_duration"; "orleans_calls"] /\
  create_custom_metrics meter_without_histograms = [].
Proof.
  destruct (create_custom_metrics_all_or_none working_meter) as [F _].
  destruct (create_custom_metrics_all_or_none meter_without_histograms) as [_ N].
  split.
  - rewrite (F _ _ _ _ eq_refl eq_refl eq_refl eq_refl). reflexivity.
  - apply N. exists (Error ValueError). right; right; left. reflexivity.
Defined.

(** ** api.py: GET /products *)

Lemma lookup_eq (metrics : Metrics) (key : string) (clock : Clock) (net : Network)
      (w : State * list TelemetryCall) :
  lookup metrics key clock net w =
  match instrument_at metrics key with
  | Some i => (Returned i, w)
  | None => (Failed (KeyError key), w)
  end.
Proof.
  induction metrics as [|[k i] metrics IH]; cbn; [reflexivity|].
  destruct (String.eqb key k); [reflexivity|exact IH].
Qed.

Lemma get_all_products_async_result (net : Network) (st : State) :
  exists st',
    get_all_products_async inventory_service net st = (Ok [], st') /\
    issued (events st')
      = (issued (events st)
         ++ map (list_request inventory_service) ProductCategory_members)%list.
Proof.
  pose proof (get_all_products_async_empty inventory_service net st) as E.
  pose proof (get_all_products_async_one_call_per_member inventory_service net st) as I.
  destruct (get_all_products_async inventory_service net st) as [[s|e] st'];
    cbn in *; [|discriminate].
  injection E as ->. exists st'. split; [reflexivity|exact I].
Qed.

(** X23. With the instruments 'operations', 'product_count' and
    'request_duration' in the dictionary, GET /products returns the empty
    list on every call, whatever the upstream holds or answers: it
    queries the eight categories, adds 1 to the operations, adds 0 to the
    product count, records the duration, and raises nothing. *)
Theorem get_all_products_returns_no_product :
  forall (metrics : Metrics) (clock : Clock) (net : Network) (st : State)
         (operations product_count request_duration : Instrument),
    instrument_at metrics "operations" = Some operations ->
    kind operations <> Histogram ->
    instrument_at metrics "product_count" = Some product_count ->
    kind product_count <> Histogram ->
    instrument_at metrics "request_duration" = Some request_duration ->
    kind request_duration = Histogram ->
    exists st' d,
      get_all_products metrics clock net (st, [])
        = (Returned (Products []),
           (st', [StartSpan "get_all_products";
                  AddAmount operations 1 [("operation", "get_all_products")];
                  AddAmount product_count 0 [("source", "get_all_products")];
                  RecordValue request_duration d [("operation", "get_all_products")];
                  SetAttributes 0 d true;
                  ExitSpan None])) /\
      issued (events st')
        = (issued (events st)
           ++ map (list_request inventory_service) ProductCategory_members)%list /\
      d = mkDuration (clock (events st)) (clock (events st')).
Proof.
  intros metrics clock net st operations product_count request_duration
    Ho Ko Hp Kp Hr Kr.
  destruct (get_all_products_async_result net st) as (st' & E & I).
  exists st', (mkDuration (clock (events st)) (clock (events st'))).
  split; [|split; [exact I|reflexivity]].
  unfold get_all_products, with_span, try_except_failure, emit, time, await,
    add, record_value, pure.
  cbn [bind H_Monad ret fst snd].
  rewrite E. cbn [fst snd List.length Z.of_nat comprehension].
  rewrite lookup_eq, Ho.
  destruct (kind operations); [| |now destruct Ko];
    unfold emit; cbn [fst snd];
    rewrite lookup_eq, Hp;
    (destruct (kind product_count); [| |now destruct Kp]);
    unfold emit; cbn [fst snd];
    rewrite lookup_eq, Hr, Kr; reflexivity.
Qed.

Lemma get_all_products_returns_no_product_witness :
  exists w,
    get_all_products (create_custom_metrics working_meter) trace_clock net_one_book
      (initial, []) = (Returned (Products []), w).
Proof.
  destruct (get_all_products_returns_no_product
              (create_custom_metrics working_meter) trace_clock net_one_book initial
              _ _ _ eq_refl ltac:(discriminate) eq_refl ltac:(discriminate)
              eq_refl eq_refl) as (st' & d & E & _).
  eexists. exact E.
Defined.

(** X24. Without the instrument 'operations' in the dictionary, as when
    the custom metrics could not be created, GET /products fails on every
    call: after the eight queries the KeyError of [metrics["operations"]]
    is caught, logged and put on the span, and the same lookup in the
    [except] clause raises it again, so a KeyError leaves the route in
    place of a body or an HTTPException. *)
Theorem get_all_products_without_operations_fails :
  forall (metrics : Metrics) (clock : Clock) (net : Network) (st : State),
    instrument_at metrics "operations" = None ->
    let missing := KeyError "operations" in
    exists st',
      fst (get_all_products_async inventory_service net st) = Ok [] /\
      snd (get_all_products_async inventory_service net st) = st' /\
      get_all_products metrics clock net (st, [])
        = (Failed missing,
           ({| events := events st';
               logs := (logs st'
                        ++ [mkLogRecord ERROR "Error getting all products: 'operations'"
                              None])%list |},
            [StartSpan "get_all_products";
             SetStatusError missing;
             RecordException missing;
             ExitSpan (Some missing)])).
Proof.
  intros metrics clock net st Ho missing. subst missing.
  destruct (get_all_products_async_result net st) as (st' & E & _).
  exists st'. rewrite E. split; [reflexivity|]. split; [reflexivity|].
  unfold get_all_products, with_span, try_except_failure, emit, time, await,
    add, record_value, pure.
  cbn [bind H_Monad ret fst snd].
  rewrite E. cbn [fst snd].
  rewrite lookup_eq, Ho.
  cbn [failure_text]. unfold log. cbn [fst snd].
  rewrite lookup_eq, Ho. reflexivity.
Qed.

Lemma get_all_products_without_operations_fails_witness :
  fst (get_all_products (create_custom_metrics meter_without_histograms)
         trace_clock net_empty (initial, []))
    = Failed (KeyError "operations").
Proof.
  destruct (get_all_products_without_operations_fails
              (create_custom_metrics meter_without_histograms) trace_clock net_empty
              initial eq_refl) as (st' & _ & _ & E).
  rewrite E. reflexivity.
Defined.
